(** * plugin-elizaos-cloud: a shallow embedding of [src/index.ts]

    The plugin adapts the host runtime's model-invocation interface to an
    OpenAI-compatible HTTP API.  Every handler of [elizaosCloudPlugin.models]
    is embedded below as a function from the world it runs in (runtime
    settings, process environment, imported packages, the network) to the
    list of effects it performs and the way it completes (return or throw).

    Conventions of the embedding:
    - a JavaScript string is a [string] (code units below 256);
    - [undefined]/[null] coming out of a settings lookup is [None];
    - a JavaScript number that is only moved around is a [Q] literal; the
      result of [Number.parseInt] is an [option Z]: [None] is [NaN],
      [Some z] the double of integral value [z], and [Some (2 ^ 1024)] and
      its opposite, the first magnitudes no double has, are the infinities;
    - calls of [logger] have no influence on results and are left out. *)

From Stdlib Require Import Ascii String QArith.
From stdpp Require Import base strings list gmap pretty.

Open Scope string_scope.

Set Warnings "-register-all".

(** ** JavaScript values and the primitive operations the plugin relies on *)

Module Js.

(** Values produced by [response.json()] and passed to [JSON.stringify]. *)
Inductive JsValue : Type :=
| JUndefined
| JNull
| JBool (b : bool)
| JNum (q : Q)
| JStr (s : string)
| JArr (items : list JsValue)
| JObj (fields : list (string * JsValue)).

(** Classes of the errors that occur in the plugin. *)
Inductive ErrorClass : Type :=
| PlainError
| TypeError
| RangeError
| JSONParseError (text : string).

Record JsError : Type := mkError { err_class : ErrorClass; message : string }.

Definition Error (msg : string) : JsError := mkError PlainError msg.

(** Completion of a computation: normal or abrupt (a [throw]). *)
Inductive Outcome (A : Type) : Type :=
| Returned (a : A)
| Thrown (e : JsError).
Arguments Returned {A} a.
Arguments Thrown {A} e.

(** [ToBoolean]. *)
Definition truthy_str (s : string) : bool :=
  match s with EmptyString => false | String _ _ => true end.

Definition truthy_opt (o : option string) : bool :=
  match o with Some s => truthy_str s | None => false end.

Definition num_is_zero (q : Q) : bool := (Qnum q =? 0)%Z.

Definition truthy (v : JsValue) : bool :=
  match v with
  | JUndefined | JNull => false
  | JBool b => b
  | JNum q => negb (num_is_zero q)
  | JStr s => truthy_str s
  | JArr _ | JObj _ => true
  end.

(** [a ?? b] on values that are either a string or nullish. *)
Definition nullish_or {A : Type} (a b : option A) : option A :=
  match a with Some x => Some x | None => b end.

(** [a || d] where [a] is a string or nullish and [d] a string. *)
Definition or_default (a : option string) (d : string) : string :=
  match a with
  | Some s => if truthy_str s then s else d
  | None => d
  end.

(** Template-literal interpolation of a value that is a string or
    [undefined]. *)
Definition interpolate (o : option string) : string :=
  match o with Some s => s | None => "undefined" end.

(** Association-list lookup: own property of an object literal. *)
Fixpoint assoc (k : string) (fields : list (string * JsValue)) : option JsValue :=
  match fields with
  | [] => None
  | (k', v) :: rest => if String.eqb k k' then Some v else assoc k rest
  end.

(** [v.k] for the property names read by the plugin; none of them is a
    built-in property of a string, an array, a number or a boolean.
    Reading a property of [null]/[undefined] throws a [TypeError]; its
    message is given in the wording of V8. *)
Definition get (v : JsValue) (k : string) : Outcome JsValue :=
  match v with
  | JUndefined =>
      Thrown (mkError TypeError ("Cannot read properties of undefined (reading '" +:+ k +:+ "')"))
  | JNull =>
      Thrown (mkError TypeError ("Cannot read properties of null (reading '" +:+ k +:+ "')"))
  | JObj fields => Returned (default JUndefined (assoc k fields))
  | _ => Returned JUndefined
  end.

(** [v?.k]. *)
Definition get_opt (v : JsValue) (k : string) : JsValue :=
  match v with
  | JObj fields => default JUndefined (assoc k fields)
  | _ => JUndefined
  end.

(** [v?.[0]]: first element of an array, first code unit of a string,
    property ["0"] of an object. *)
Definition index0_opt (v : JsValue) : JsValue :=
  match v with
  | JArr (x :: _) => x
  | JStr (String c _) => JStr (String c EmptyString)
  | JObj fields => default JUndefined (assoc "0" fields)
  | _ => JUndefined
  end.

(** White space and line terminators below code unit 256. *)
Definition is_space (c : ascii) : bool :=
  let n := N_of_ascii c in
  ((9 <=? n) && (n <=? 13) || (n =? 32) || (n =? 160))%N.

(** Line terminators: what the regular-expression atom [.] rejects. *)
Definition is_line_terminator (c : ascii) : bool :=
  let n := N_of_ascii c in ((n =? 10) || (n =? 13))%N.

Fixpoint trimStart (s : string) : string :=
  match s with
  | String c s' => if is_space c then trimStart s' else s
  | EmptyString => EmptyString
  end.

Fixpoint all_space (s : string) : bool :=
  match s with
  | String c s' => is_space c && all_space s'
  | EmptyString => true
  end.

Fixpoint trimEnd (s : string) : string :=
  match s with
  | String c s' => if all_space s then EmptyString else String c (trimEnd s')
  | EmptyString => EmptyString
  end.

(** [String.prototype.trim]. *)
Definition trim (s : string) : string := trimEnd (trimStart s).

(** [String.prototype.toLowerCase] on code units below 256. *)
Definition lower_char (c : ascii) : ascii :=
  let n := N_of_ascii c in
  if ((65 <=? n) && (n <=? 90) || (192 <=? n) && (n <=? 222) && negb (n =? 215))%N
  then ascii_of_N (n + 32) else c.

Fixpoint toLowerCase (s : string) : string :=
  match s with
  | String c s' => String (lower_char c) (toLowerCase s')
  | EmptyString => EmptyString
  end.

Definition is_digit (c : ascii) : bool :=
  let n := N_of_ascii c in ((48 <=? n) && (n <=? 57))%N.

Definition digit_value (c : ascii) : Z := Z.of_N (N_of_ascii c) - 48.

(** The longest prefix of decimal digits, read as a number; [acc] is
    [None] until a digit has been seen. *)
Fixpoint digits (s : string) (acc : option Z) : option Z :=
  match s with
  | String c s' =>
      if is_digit c then digits s' (Some (10 * default 0%Z acc + digit_value c)%Z)
      else acc
  | EmptyString => acc
  end.

(** The smallest magnitude that no double has: it stands for [Infinity]. *)
Definition infinity : Z := 2 ^ 1024.

(** The double nearest to the natural number [m]: 53 significant bits,
    ties to the even significand, overflow to [infinity]. *)
Definition nearest_double (m : Z) : Z :=
  if (m <? 2 ^ 53)%Z then m
  else
    let e := (Z.log2 m - 52)%Z in
    let q := Z.shiftr m e in
    let r := (m - Z.shiftl q e)%Z in
    let half := (2 ^ (e - 1))%Z in
    let q' := if ((half <? r) || (r =? half) && Z.odd q)%Z then (q + 1)%Z else q in
    let v := Z.shiftl q' e in
    if (infinity <=? v)%Z then infinity else v.

(** The Number value of a mathematical integer. *)
Definition to_double (z : Z) : Z :=
  if (z <? 0)%Z then (- nearest_double (- z))%Z else nearest_double z.

(** [Number.parseInt(s, 10)]: the digits are read exactly and the result
    is the Number value of what they denote; [None] is [NaN]. *)
Definition parseInt10 (s : string) : option Z :=
  match trimStart s with
  | String "-" r => (fun m => to_double (- m)) <$> digits r None
  | String "+" r => to_double <$> digits r None
  | r => to_double <$> digits r None
  end.

(** [Number::toString] looks for the decimal with the fewest significant
    digits that still denotes the double [v]; [with_digits v d k] is the
    candidate with [k] significant digits, if there is one, where [d] is
    the number of digits of [v].  Of two candidates the closer one is
    taken, and the even one in a tie. *)
Definition with_digits (v d k : Z) : option Z :=
  let p := (10 ^ (d - k))%Z in
  let c0 := (v / p * p)%Z in
  let c1 := (c0 + p)%Z in
  match (nearest_double c0 =? v)%Z, (nearest_double c1 =? v)%Z with
  | true, true =>
      if (v - c0 <? c1 - v)%Z then Some c0
      else if (c1 - v <? v - c0)%Z then Some c1
      else if Z.even (v / p) then Some c0 else Some c1
  | true, false => Some c0
  | false, true => Some c1
  | false, false => None
  end.

Fixpoint fewest_digits (v d : Z) (ks : list nat) : Z :=
  match ks with
  | [] => v
  | k :: rest =>
      match with_digits v d (Z.of_nat k) with
      | Some c => c
      | None => fewest_digits v d rest
      end
  end.

(** The decimal that [Number::toString] prints for the double [v] of
    magnitude at least [2 ^ 53]; seventeen digits always suffice. *)
Definition shortest_decimal (v : Z) : Z :=
  fewest_digits v (Z.of_nat (String.length (pretty v))) (seq 1 17).

Fixpoint all_zero (s : string) : bool :=
  match s with
  | String c s' => Ascii.eqb c "0" && all_zero s'
  | EmptyString => true
  end.

(** The digits of a decimal without its trailing zeros. *)
Fixpoint significand (s : string) : string :=
  match s with
  | String c s' => if all_zero s then EmptyString else String c (significand s')
  | EmptyString => EmptyString
  end.

(** [Number::toString] of a double of non-negative integral value:
    every digit below [2 ^ 53], where distinct integers are distinct
    doubles; above, the shortest decimal, written in full up to 21 digits
    and in exponent notation beyond. *)
Definition Number_toString (v : Z) : string :=
  if (v <? 2 ^ 53)%Z then pretty v
  else if (infinity <=? v)%Z then "Infinity"
  else
    let ds := pretty (shortest_decimal v) in
    let n := String.length ds in
    if (n <=? 21)%nat then ds
    else
      match significand ds with
      | String c EmptyString => String c EmptyString +:+ "e+" +:+ pretty (n - 1)%nat
      | String c rest => String c ("." +:+ rest) +:+ "e+" +:+ pretty (n - 1)%nat
      | EmptyString => ds
      end.

(** [String(n)] for the result of [parseInt]. *)
Definition show_int (n : option Z) : string :=
  match n with
  | Some z => if (z <? 0)%Z then "-" +:+ Number_toString (- z) else Number_toString z
  | None => "NaN"
  end.

(** [xs.join(', ')] for a list of integers. *)
Fixpoint join_ints (xs : list Z) : string :=
  match xs with
  | [] => ""
  | [x] => pretty x
  | x :: rest => pretty x +:+ ", " +:+ join_ints rest
  end.

(** [Array(n).fill(0)]: a range error for a length that is no array
    length. *)
Definition Array_fill0 (n : option Z) : Outcome (list JsValue) :=
  match n with
  | Some z =>
      if ((0 <=? z) && (z <? 2 ^ 32))%Z
      then Returned (replicate (Z.to_nat z) (JNum 0%Q))
      else Thrown (mkError RangeError "Invalid array length")
  | None => Thrown (mkError RangeError "Invalid array length")
  end.

(** A string-or-[undefined] as a value. *)
Definition of_opt_string (o : option string) : JsValue :=
  match o with Some s => JStr s | None => JUndefined end.

(** The result of [parseInt] as a value handed to [JSON.stringify],
    which prints [NaN] and the infinities as [null]. *)
Definition of_opt_int (o : option Z) : JsValue :=
  match o with
  | Some z => if (Z.abs z <? infinity)%Z then JNum (inject_Z z) else JNull
  | None => JNull
  end.

(** [v[0] = x]: an empty array grows to length one. *)
Definition set0 (v : list JsValue) (x : JsValue) : list JsValue :=
  match v with
  | [] => [x]
  | _ :: rest => x :: rest
  end.

(** [includes] on a list of integers, for a possibly-[NaN] needle. *)
Definition includes (xs : list Z) (n : option Z) : bool :=
  match n with
  | Some z => bool_decide (z ∈ xs)
  | None => false
  end.

End Js.

(** ** The two regular expressions of the plugin

    Both are matched by the backtracking discipline of the ECMAScript
    specification, written out for the two patterns at hand. *)

Module Regex.
Import Js.

Definition nl : ascii := ascii_of_N 10.

(** [[:\s]] *)
Definition is_sep (c : ascii) : bool := Ascii.eqb c ":" || is_space c.

(** [.] *)
Definition is_dot (c : ascii) : bool := negb (is_line_terminator c).

(** Canonicalisation under the [i] flag, for a pattern of ASCII letters. *)
Definition fold_case (c : ascii) : ascii :=
  let n := N_of_ascii c in
  if ((65 <=? n) && (n <=? 90))%N then ascii_of_N (n + 32) else c.

(** The literal [lit] (lower case) at the head of [s], ignoring case; the
    result is what follows it. *)
Fixpoint literal_ci (lit s : string) : option string :=
  match lit, s with
  | EmptyString, _ => Some s
  | String a lit', String c s' =>
      if Ascii.eqb (fold_case c) a then literal_ci lit' s' else None
  | String _ _, EmptyString => None
  end.

(** [(.+?)(?:\n|$)] once the group holds one character already: stop at
    the first newline or at the end of input, extend over any other
    character that [.] accepts.  The result is the rest of the group and
    the input left after the match. *)
Fixpoint lazy_rest (r : string) : option (string * string) :=
  match r with
  | EmptyString => Some (EmptyString, EmptyString)
  | String c r' =>
      if Ascii.eqb c nl then Some (EmptyString, r')
      else if is_dot c then
        match lazy_rest r' with
        | Some (g, rem) => Some (String c g, rem)
        | None => None
        end
      else None
  end.

(** [(.+?)(?:\n|$)] *)
Definition group_end (r : string) : option (string * string) :=
  match r with
  | String c r' =>
      if is_dot c then
        match lazy_rest r' with
        | Some (g, rem) => Some (String c g, rem)
        | None => None
        end
      else None
  | EmptyString => None
  end.

(** [[:\s]*(.+?)(?:\n|$)], greedy in the separators: one more separator
    is tried first, the group starts here when that fails. *)
Fixpoint seps_group_end (r : string) : option (string * string) :=
  match r with
  | String c r' =>
      if is_sep c then
        match seps_group_end r' with
        | Some res => Some res
        | None => group_end r
        end
      else group_end r
  | EmptyString => None
  end.

(** The whole pattern [title[:\s]+(.+?)(?:\n|$)] anchored at the head of
    [s]: capture group 1 and the input after the match. *)
Definition title_here (s : string) : option (string * string) :=
  match literal_ci "title" s with
  | Some (String c r) => if is_sep c then seps_group_end r else None
  | _ => None
  end.

(** The leftmost match of [/title[:\s]+(.+?)(?:\n|$)/i] in [s]: the input
    before the match, capture group 1, the input after the match. *)
Fixpoint title_exec (s : string) : option (string * string * string) :=
  match title_here s with
  | Some (g, rem) => Some (EmptyString, g, rem)
  | None =>
      match s with
      | String c s' =>
          match title_exec s' with
          | Some (pre, g, rem) => Some (String c pre, g, rem)
          | None => None
          end
      | EmptyString => None
      end
  end.

(** [content.match(re)?.[1]] *)
Definition title_group (content : string) : option string :=
  match title_exec content with
  | Some (_, g, _) => Some g
  | None => None
  end.

(** [content.replace(re, '')] *)
Definition title_removed (content : string) : string :=
  match title_exec content with
  | Some (pre, _, rem) => pre +:+ rem
  | None => content
  end.

Definition fence : string := "```".
Definition fence_json_nl : string := "```json" +:+ String nl EmptyString.
Definition nl_fence : string := String nl "```".

(** [text.replace(/```json\n|\n```|```/g, '')]: at every position the
    alternatives are tried in order; [skip] counts the characters of a
    match still to be dropped. *)
Fixpoint strip_fences_from (skip : nat) (s : string) : string :=
  match s with
  | EmptyString => EmptyString
  | String c s' =>
      match skip with
      | S k => strip_fences_from k s'
      | O =>
          if String.prefix fence_json_nl s then strip_fences_from 7 s'
          else if String.prefix nl_fence s then strip_fences_from 3 s'
          else if String.prefix fence s then strip_fences_from 2 s'
          else String c (strip_fences_from 0 s')
      end
  end.

Definition strip_fences (s : string) : string := strip_fences_from 0 s.

End Regex.

(** ** Effects: what a handler does to the outside, and how it completes *)

Module Effects.
Import Js.

(** Body of an outbound request: [JSON.stringify] of a value, or a
    [FormData]. *)
Inductive FormPart : Type :=
| FilePart (name : string) (content : list Byte.byte) (filename : string)
| TextPart (name value : string).

Inductive RequestBody : Type :=
| NoBody
| JsonBody (v : JsValue)
| FormBody (parts : list FormPart).

Record Request : Type := mkRequest {
  url : string;
  method : string;
  headers : list (string * string);
  body : RequestBody
}.

(** An HTTP response as the handlers observe it.  The three views of the
    body ([text()], [json()], the raw stream) are separate observations;
    decoding and JSON parsing of the wire bytes are not modelled. *)
Record Response : Type := mkResponse {
  status : N;
  statusText : string;
  resp_text : Outcome string;
  resp_json : Outcome JsValue;
  resp_body : option string
}.

(** [response.ok] *)
Definition ok (r : Response) : bool := ((200 <=? status r) && (status r <=? 299))%N.

(** [LanguageModelUsage] of the [ai] package. *)
Record Usage : Type := mkUsage {
  promptTokens : JsValue;
  completionTokens : JsValue;
  totalTokens : JsValue
}.

(** The provider object returned by [createOpenAI]. *)
Record OpenAIClient : Type := mkClient {
  client_apiKey : option string;
  client_baseURL : string
}.

(** Arguments of one [generateText] call. *)
Record GenerateTextCall : Type := mkGenerateTextCall {
  gt_client : OpenAIClient;
  gt_model : string;
  gt_prompt : string;
  gt_system : option string;
  gt_temperature : Q;
  gt_maxTokens : Q;
  gt_frequencyPenalty : Q;
  gt_presencePenalty : Q;
  gt_stopSequences : list string;
  gt_telemetry : bool
}.

Record GenerateTextResult : Type := mkGenerateTextResult {
  gt_text : string;
  gt_usage : option Usage
}.

(** Arguments of one [generateObject] call ([output: 'no-schema']). *)
Record GenerateObjectCall : Type := mkGenerateObjectCall {
  go_client : OpenAIClient;
  go_model : string;
  go_prompt : string;
  go_temperature : Q
}.

Record GenerateObjectResult : Type := mkGenerateObjectResult {
  go_object : JsValue;
  go_usage : option Usage
}.

(** The model types this plugin registers handlers for. *)
Inductive ModelType : Type :=
| TEXT_SMALL
| TEXT_LARGE
| TEXT_EMBEDDING
| TEXT_TOKENIZER_ENCODE
| TEXT_TOKENIZER_DECODE
| IMAGE
| IMAGE_DESCRIPTION
| TRANSCRIPTION
| TEXT_TO_SPEECH
| OBJECT_SMALL
| OBJECT_LARGE.

Definition ModelType_eqb (a b : ModelType) : bool :=
  match a, b with
  | TEXT_SMALL, TEXT_SMALL | TEXT_LARGE, TEXT_LARGE
  | TEXT_EMBEDDING, TEXT_EMBEDDING
  | TEXT_TOKENIZER_ENCODE, TEXT_TOKENIZER_ENCODE
  | TEXT_TOKENIZER_DECODE, TEXT_TOKENIZER_DECODE
  | IMAGE, IMAGE | IMAGE_DESCRIPTION, IMAGE_DESCRIPTION
  | TRANSCRIPTION, TRANSCRIPTION | TEXT_TO_SPEECH, TEXT_TO_SPEECH
  | OBJECT_SMALL, OBJECT_SMALL | OBJECT_LARGE, OBJECT_LARGE => true
  | _, _ => false
  end.

Inductive EventType : Type := MODEL_USED.

(** Payload of the usage-accounting event. *)
Record UsagePayload : Type := mkUsagePayload {
  provider : string;
  type : ModelType;
  prompt : string;
  tokens_prompt : JsValue;
  tokens_completion : JsValue;
  tokens_total : JsValue
}.

(** Everything a handler can do to the outside world. *)
Inductive Event : Type :=
| EvFetch (req : Request)
| EvGenerateText (call : GenerateTextCall)
| EvGenerateObject (call : GenerateObjectCall)
| EvEmit (ev : EventType) (payload : UsagePayload).

(** A tokenizer of [js-tiktoken]. *)
Record Encoding : Type := mkEncoding {
  encode : string -> Outcome (list N);
  decode : list N -> string
}.

(** The world a handler runs in: the host runtime, the process
    environment, the constants and functions of the imported packages
    ([@elizaos/core], [ai], [js-tiktoken], [undici]) and [JSON.parse]. *)
Record World : Type := mkWorld {
  settings : gmap string string;
  env : gmap string string;
  character_system : option string;
  VECTOR_DIMS : list Z;
  fetch : Request -> Outcome Response;
  generateText : GenerateTextCall -> Outcome GenerateTextResult;
  generateObject : GenerateObjectCall -> Outcome GenerateObjectResult;
  encodingForModel : string -> Outcome Encoding;
  JSON_parse : string -> Outcome JsValue
}.

(** A computation: the trace of its effects, in order, and its
    completion. *)
Definition M (A : Type) : Type := (list Event * Outcome A)%type.

Definition ret {A : Type} (a : A) : M A := ([], Returned a).

Definition throw {A : Type} (e : JsError) : M A := ([], Thrown e).

Definition lift {A : Type} (o : Outcome A) : M A := ([], o).

Definition bind {A B : Type} (m : M A) (k : A -> M B) : M B :=
  match m with
  | (t, Returned a) => let '(t', r) := k a in ((t ++ t')%list, r)
  | (t, Thrown e) => (t, Thrown e)
  end.

(** [try { m } catch (e) { h e }] *)
Definition try_catch {A : Type} (m : M A) (h : JsError -> M A) : M A :=
  match m with
  | (t, Returned a) => (t, Returned a)
  | (t, Thrown e) => let '(t', r) := h e in ((t ++ t')%list, r)
  end.

Definition perform {A : Type} (ev : Event) (o : Outcome A) : M A := ([ev], o).

Definition trace {A : Type} (m : M A) : list Event := fst m.
Definition completion {A : Type} (m : M A) : Outcome A := snd m.

Notation "'let*' x ':=' m 'in' k" := (bind m (fun x => k))
  (at level 10, x name, m at level 100, k at level 200).
Notation "m ';;' k" := (bind m (fun _ => k))
  (at level 100, k at level 200, right associativity).

End Effects.

(** ** The plugin: settings resolution *)

Module Plugin.
Import Js Regex Effects.

(** The TypeScript cast [as string] of a lookup that carries a default;
    a nullish value would print as ["undefined"]. *)
Definition as_string (o : option string) : string := interpolate o.

(** [runtime.getSetting(key) ?? process.env[key] ?? defaultValue] *)
Definition getSetting (w : World) (key : string) (defaultValue : option string)
  : option string :=
  nullish_or (nullish_or (settings w !! key) (env w !! key)) defaultValue.

Definition getBaseURL (w : World) : string :=
  as_string (getSetting w "ELIZAOS_BASE_URL" (Some "http://localhost:3001/api/v1")).

Definition getEmbeddingBaseURL (w : World) : string :=
  let embeddingURL := getSetting w "ELIZAOS_EMBEDDING_URL" None in
  match embeddingURL with
  | Some u => if truthy_str u then u else getBaseURL w
  | None => getBaseURL w
  end.

Definition getApiKey (w : World) : option string :=
  getSetting w "ELIZAOS_API_KEY" None.

Definition getEmbeddingApiKey (w : World) : option string :=
  let embeddingApiKey := getSetting w "ELIZAOS_EMBEDDING_API_KEY" None in
  if truthy_opt embeddingApiKey then embeddingApiKey else getApiKey w.

Definition getSmallModel (w : World) : string :=
  as_string (nullish_or (getSetting w "ELIZAOS_SMALL_MODEL" None)
                        (getSetting w "SMALL_MODEL" (Some "gpt-4o"))).

Definition getLargeModel (w : World) : string :=
  as_string (nullish_or (getSetting w "ELIZAOS_LARGE_MODEL" None)
                        (getSetting w "LARGE_MODEL" (Some "gpt-5-mini"))).

Definition getImageDescriptionModel (w : World) : string :=
  as_string (nullish_or (getSetting w "ELIZAOS_IMAGE_DESCRIPTION_MODEL" (Some "gpt-4o"))
                        (Some "gpt-4o")).

Definition getExperimentalTelemetry (w : World) : bool :=
  let setting := getSetting w "ELIZAOS_EXPERIMENTAL_TELEMETRY" (Some "false") in
  let normalizedSetting := toLowerCase (interpolate setting) in
  String.eqb normalizedSetting "true".

Definition createOpenAIClient (w : World) : OpenAIClient :=
  mkClient (getApiKey w) (getBaseURL w).

(** ** Tokenizer *)

Definition tokenizeText (w : World) (model : ModelType) (prompt : string)
  : Outcome (list N) :=
  let modelName :=
    if ModelType_eqb model TEXT_SMALL
    then as_string (nullish_or (nullish_or (env w !! "ELIZAOS_SMALL_MODEL")
                                           (env w !! "SMALL_MODEL"))
                               (Some "gpt-4o"))
    else as_string (nullish_or (nullish_or (env w !! "ELIZAOS_LARGE_MODEL")
                                           (env w !! "LARGE_MODEL"))
                               (Some "gpt-5-mini")) in
  match encodingForModel w modelName with
  | Returned encoding => encode encoding prompt
  | Thrown e => Thrown e
  end.

Definition detokenizeText (w : World) (model : ModelType) (tokens : list N)
  : Outcome string :=
  let modelName :=
    if ModelType_eqb model TEXT_SMALL
    then as_string (nullish_or (nullish_or (env w !! "ELIZAOS_SMALL_MODEL")
                                           (env w !! "SMALL_MODEL"))
                               (Some "gpt-4o"))
    else as_string (nullish_or (nullish_or (env w !! "ELIZAOS_LARGE_MODEL")
                                           (env w !! "LARGE_MODEL"))
                               (Some "gpt-5-mini")) in
  match encodingForModel w modelName with
  | Returned encoding => Returned (decode encoding tokens)
  | Thrown e => Thrown e
  end.

Record TokenizeTextParams : Type := mkTokenizeTextParams {
  tt_prompt : string;
  tt_modelType : option ModelType
}.

Record DetokenizeTextParams : Type := mkDetokenizeTextParams {
  dt_tokens : list N;
  dt_modelType : option ModelType
}.

Definition TEXT_TOKENIZER_ENCODE_handler (w : World) (p : TokenizeTextParams)
  : M (list N) :=
  lift (tokenizeText w (default TEXT_LARGE (tt_modelType p)) (tt_prompt p)).

Definition TEXT_TOKENIZER_DECODE_handler (w : World) (p : DetokenizeTextParams)
  : M string :=
  lift (detokenizeText w (default TEXT_LARGE (dt_modelType p)) (dt_tokens p)).

(** ** Usage accounting *)

Definition emitModelUsageEvent (type : ModelType) (prompt : string) (usage : Usage)
  : M unit :=
  perform (EvEmit MODEL_USED
             (mkUsagePayload "elizaos" type prompt
                (promptTokens usage) (completionTokens usage) (totalTokens usage)))
          (Returned tt).

(** ** Text to speech *)

Definition speechRequest (w : World) (text : string) : Request :=
  let apiKey := getApiKey w in
  let model := getSetting w "ELIZAOS_TTS_MODEL" (Some "gpt-4o-mini-tts") in
  let voice := getSetting w "ELIZAOS_TTS_VOICE" (Some "nova") in
  let instructions := getSetting w "ELIZAOS_TTS_INSTRUCTIONS" (Some "") in
  let baseURL := getBaseURL w in
  mkRequest (baseURL +:+ "/audio/speech") "POST"
    [("Authorization", "Bearer " +:+ interpolate apiKey);
     ("Content-Type", "application/json")]
    (JsonBody (JObj ([("model", of_opt_string model);
                      ("voice", of_opt_string voice);
                      ("input", JStr text)]
                     ++ (if truthy_opt instructions
                         then [("instructions", of_opt_string instructions)]
                         else []))%list)).

Definition fetchTextToSpeech (w : World) (text : string) : M (option string) :=
  try_catch
    (let req := speechRequest w text in
     let* res := perform (EvFetch req) (fetch w req) in
     if negb (ok res) then
       let* err := lift (resp_text res) in
       throw (Error ("ElizaOS TTS error " +:+ pretty (status res) +:+ ": " +:+ err))
     else ret (resp_body res))
    (fun err =>
       throw (Error ("Failed to fetch speech from ElizaOS TTS: " +:+ message err))).

Definition TEXT_TO_SPEECH_handler (w : World) (text : string) : M (option string) :=
  try_catch (fetchTextToSpeech w text) (fun error => throw error).

(** ** Embeddings *)

Inductive TextEmbeddingParams : Type :=
| EmbedNull
| EmbedString (s : string)
| EmbedObject (text : string).

(** [const v = Array(dim).fill(0); v[0] = first; return v] *)
Definition sentinel (dim : option Z) (first : Q) : M JsValue :=
  let* v := lift (Array_fill0 dim) in
  ret (JArr (set0 v (JNum first))).

Definition embeddingDimension (w : World) : option Z :=
  parseInt10 (or_default (getSetting w "ELIZAOS_EMBEDDING_DIMENSIONS" (Some "1536")) "1536").

Definition embeddingRequest (w : World) (text : string) : Request :=
  mkRequest (getEmbeddingBaseURL w +:+ "/embeddings") "POST"
    [("Authorization", "Bearer " +:+ interpolate (getEmbeddingApiKey w));
     ("Content-Type", "application/json")]
    (JsonBody (JObj [("model", of_opt_string
                                 (getSetting w "ELIZAOS_EMBEDDING_MODEL"
                                    (Some "text-embedding-3-small")));
                     ("input", JStr text)])).

Definition TEXT_EMBEDDING_handler (w : World) (params : TextEmbeddingParams)
  : M JsValue :=
  let embeddingDimension := embeddingDimension w in
  if negb (includes (VECTOR_DIMS w) embeddingDimension) then
    throw (Error ("Invalid embedding dimension: " +:+ show_int embeddingDimension
                  +:+ ". Must be one of: " +:+ join_ints (VECTOR_DIMS w)))
  else
    match params with
    | EmbedNull => sentinel embeddingDimension (1 # 10)%Q
    | _ =>
        let text :=
          match params with
          | EmbedString s => Some s
          | EmbedObject t => if truthy_str t then Some t else None
          | EmbedNull => None
          end in
        match text with
        | None => sentinel embeddingDimension (2 # 10)%Q
        | Some text =>
            if negb (truthy_str (trim text)) then sentinel embeddingDimension (3 # 10)%Q
            else
              let apiKey := getEmbeddingApiKey w in
              if negb (truthy_opt apiKey) then
                throw (Error "ElizaOS API key not configured")
              else
                try_catch
                  (let req := embeddingRequest w text in
                   let* response := perform (EvFetch req) (fetch w req) in
                   let* rawResponseBody := lift (resp_text response) in
                   if negb (ok response) then sentinel embeddingDimension (4 # 10)%Q
                   else
                     let* data := lift (resp_json response) in
                     let embedding :=
                       get_opt (index0_opt (get_opt data "data")) "embedding" in
                     if negb (truthy embedding) then sentinel embeddingDimension (5 # 10)%Q
                     else
                       let* usage := lift (get data "usage") in
                       (if truthy usage then
                          let* prompt_tokens := lift (get usage "prompt_tokens") in
                          let* total_tokens := lift (get usage "total_tokens") in
                          emitModelUsageEvent TEXT_EMBEDDING text
                            (mkUsage prompt_tokens (JNum 0%Q) total_tokens)
                        else ret tt) ;;
                       ret embedding)
                  (fun error => sentinel embeddingDimension (6 # 10)%Q)
        end
    end.

(** ** Text and object generation through the [ai] package *)

Record GenerateTextParams : Type := mkGenerateTextParams {
  gp_prompt : string;
  gp_stopSequences : option (list string);
  gp_maxTokens : option Q;
  gp_temperature : option Q;
  gp_frequencyPenalty : option Q;
  gp_presencePenalty : option Q
}.

(** The argument of [generateText], for the model name [modelName]. *)
Definition textCall (w : World) (modelName : string) (p : GenerateTextParams)
  : GenerateTextCall :=
  let openai := createOpenAIClient w in
  let experimentalTelemetry := getExperimentalTelemetry w in
  mkGenerateTextCall openai modelName (gp_prompt p) (character_system w)
    (default (7 # 10)%Q (gp_temperature p))
    (default 8192%Q (gp_maxTokens p))
    (default (7 # 10)%Q (gp_frequencyPenalty p))
    (default (7 # 10)%Q (gp_presencePenalty p))
    (default [] (gp_stopSequences p))
    experimentalTelemetry.

Definition TEXT_SMALL_handler (w : World) (p : GenerateTextParams) : M string :=
  let modelName := getSmallModel w in
  let call := textCall w modelName p in
  let* res := perform (EvGenerateText call) (generateText w call) in
  (match gt_usage res with
   | Some usage => emitModelUsageEvent TEXT_SMALL (gp_prompt p) usage
   | None => ret tt
   end) ;;
  ret (gt_text res).

Definition TEXT_LARGE_handler (w : World) (p : GenerateTextParams) : M string :=
  let modelName := getLargeModel w in
  let call := textCall w modelName p in
  let* res := perform (EvGenerateText call) (generateText w call) in
  (match gt_usage res with
   | Some usage => emitModelUsageEvent TEXT_LARGE (gp_prompt p) usage
   | None => ret tt
   end) ;;
  ret (gt_text res).

Record ObjectGenerationParams : Type := mkObjectGenerationParams {
  og_prompt : string;
  og_temperature : option Q;
  og_schema : option JsValue
}.

(** The repair function: the text without its code fences if that parses,
    [null] ([None]) otherwise. *)
Definition getJsonRepairFunction (w : World) (text : string) (error : JsError)
  : option string :=
  match err_class error with
  | JSONParseError _ =>
      let cleanedText := strip_fences text in
      match JSON_parse w cleanedText with
      | Returned _ => Some cleanedText
      | Thrown _ => None
      end
  | _ => None
  end.

(** The argument of [generateObject]. *)
Definition objectCall (w : World) (params : ObjectGenerationParams)
    (getModelFn : World -> string) : GenerateObjectCall :=
  let openai := createOpenAIClient w in
  let modelName := getModelFn w in
  let temperature := default 0%Q (og_temperature params) in
  mkGenerateObjectCall openai modelName (og_prompt params) temperature.

Definition generateObjectByModelType (w : World) (params : ObjectGenerationParams)
    (modelType : ModelType) (getModelFn : World -> string) : M JsValue :=
  try_catch
    (let call := objectCall w params getModelFn in
     let* res := perform (EvGenerateObject call) (generateObject w call) in
     (match go_usage res with
      | Some usage => emitModelUsageEvent modelType (og_prompt params) usage
      | None => ret tt
      end) ;;
     ret (go_object res))
    (fun error =>
       match err_class error with
       | JSONParseError text =>
           match getJsonRepairFunction w text error with
           | Some repairedJsonString =>
               if truthy_str repairedJsonString
               then try_catch (lift (JSON_parse w repairedJsonString))
                              (fun repairParseError => throw repairParseError)
               else throw error
           | None => throw error
           end
       | _ => throw error
       end).

Definition OBJECT_SMALL_handler (w : World) (params : ObjectGenerationParams) : M JsValue :=
  generateObjectByModelType w params OBJECT_SMALL getSmallModel.

Definition OBJECT_LARGE_handler (w : World) (params : ObjectGenerationParams) : M JsValue :=
  generateObjectByModelType w params OBJECT_LARGE getLargeModel.

(** ** Image generation *)

Record ImageParams : Type := mkImageParams {
  img_prompt : string;
  img_n : option Q;
  img_size : option string
}.

Definition imageRequest (w : World) (params : ImageParams) : Request :=
  let n :=
    match img_n params with
    | Some k => if num_is_zero k then 1%Q else k
    | None => 1%Q
    end in
  let size := or_default (img_size params) "1024x1024" in
  let prompt := img_prompt params in
  let baseURL := getBaseURL w in
  let apiKey := getApiKey w in
  mkRequest (baseURL +:+ "/images/generations") "POST"
    [("Authorization", "Bearer " +:+ interpolate apiKey);
     ("Content-Type", "application/json")]
    (JsonBody (JObj [("prompt", JStr prompt); ("n", JNum n); ("size", JStr size)])).

Definition IMAGE_handler (w : World) (params : ImageParams) : M JsValue :=
  let apiKey := getApiKey w in
  if negb (truthy_opt apiKey) then throw (Error "ElizaOS API key not configured")
  else
    try_catch
      (let req := imageRequest w params in
       let* response := perform (EvFetch req) (fetch w req) in
       let* rawResponseBody := lift (resp_text response) in
       if negb (ok response) then
         throw (Error ("Failed to generate image: " +:+ statusText response))
       else
         let* data := lift (resp_json response) in
         lift (get data "data"))
      (fun error => throw error).

(** ** Transcription *)

Definition transcriptionRequest (w : World) (bytes : list Byte.byte) : Request :=
  let baseURL := getBaseURL w in
  let apiKey := getApiKey w in
  let formData := [FilePart "file" bytes "recording.mp3"; TextPart "model" "whisper-1"] in
  mkRequest (baseURL +:+ "/audio/transcriptions") "POST"
    [("Authorization", "Bearer " +:+ interpolate apiKey)]
    (FormBody formData).

Definition TRANSCRIPTION_handler (w : World) (audioBuffer : option (list Byte.byte))
  : M JsValue :=
  let apiKey := getApiKey w in
  if negb (truthy_opt apiKey) then
    throw (Error "ElizaOS API key not configured - Cannot make request")
  else
    match audioBuffer with
    | None | Some [] => throw (Error "Audio buffer is empty or invalid for transcription")
    | Some bytes =>
        try_catch
          (let req := transcriptionRequest w bytes in
           let* response := perform (EvFetch req) (fetch w req) in
           let* rawResponseBody := lift (resp_text response) in
           if negb (ok response) then
             throw (Error ("Failed to transcribe audio: " +:+ statusText response))
           else
             let* data := lift (resp_json response) in
             lift (get data "text"))
          (fun error => throw error)
    end.

(** ** Image description *)

Inductive ImageDescriptionParams : Type :=
| DescribeUrl (imageUrl : string)
| DescribeObject (imageUrl : string) (prompt : option string).

Inductive ImageDescriptionResult : Type :=
| RawContent (content : JsValue)
| TitleDescription (title description : string).

Definition defaultPrompt : string :=
  "Please analyze this image and provide a title and detailed description.".

(** [typeof params === 'object' && params.prompt && params.prompt !== default] *)
Definition isCustomPrompt (params : ImageDescriptionParams) : bool :=
  match params with
  | DescribeUrl _ => false
  | DescribeObject _ prompt =>
      truthy_opt prompt && negb (String.eqb (interpolate prompt) defaultPrompt)
  end.

Definition imageDescriptionRequest (w : World) (params : ImageDescriptionParams)
  : Request :=
  let modelName := getImageDescriptionModel w in
  let maxTokens :=
    parseInt10 (or_default (getSetting w "OPENAI_IMAGE_DESCRIPTION_MAX_TOKENS" (Some "8192"))
                           "8192") in
  let imageUrl :=
    match params with
    | DescribeUrl u => u
    | DescribeObject u _ => u
    end in
  let promptText :=
    match params with
    | DescribeUrl _ => defaultPrompt
    | DescribeObject _ prompt => or_default prompt defaultPrompt
    end in
  let messages :=
    JArr [JObj [("role", JStr "user");
                ("content",
                 JArr [JObj [("type", JStr "text"); ("text", JStr promptText)];
                       JObj [("type", JStr "image_url");
                             ("image_url", JObj [("url", JStr imageUrl)])]])]] in
  mkRequest (getBaseURL w +:+ "/chat/completions") "POST"
    [("Content-Type", "application/json");
     ("Authorization", "Bearer " +:+ interpolate (getApiKey w))]
    (JsonBody (JObj [("model", JStr modelName);
                     ("messages", messages);
                     ("max_tokens", of_opt_int maxTokens)])).

Definition IMAGE_DESCRIPTION_handler (w : World) (params : ImageDescriptionParams)
  : M ImageDescriptionResult :=
  let apiKey := getApiKey w in
  if negb (truthy_opt apiKey) then
    ret (TitleDescription "Failed to analyze image" "API key not configured")
  else
    try_catch
      (let req := imageDescriptionRequest w params in
       let* response := perform (EvFetch req) (fetch w req) in
       let* rawResponseBody := lift (resp_text response) in
       if negb (ok response) then
         throw (Error ("ElizaOS API error: " +:+ pretty (status response)))
       else
         let* result := lift (resp_json response) in
         let* choices := lift (get result "choices") in
         let content := get_opt (get_opt (index0_opt choices) "message") "content" in
         let* usage := lift (get result "usage") in
         (if truthy usage then
            let* prompt_tokens := lift (get usage "prompt_tokens") in
            let* completion_tokens := lift (get usage "completion_tokens") in
            let* total_tokens := lift (get usage "total_tokens") in
            emitModelUsageEvent IMAGE_DESCRIPTION
              (match params with
               | DescribeUrl u => u
               | DescribeObject _ prompt => or_default prompt ""
               end)
              (mkUsage prompt_tokens completion_tokens total_tokens)
          else ret tt) ;;
         if negb (truthy content) then
           ret (TitleDescription "Failed to analyze image" "No response from API")
         else if isCustomPrompt params then ret (RawContent content)
         else
           match content with
           | JStr content =>
               let title := or_default (trim <$> title_group content) "Image Analysis" in
               let description := trim (title_removed content) in
               ret (TitleDescription title description)
           | _ => throw (mkError TypeError "content.match is not a function")
           end)
      (fun error =>
         ret (TitleDescription "Failed to analyze image" ("Error: " +:+ message error))).

(** ** The [models] table *)

Inductive Invocation : Type :=
| CallTextEmbedding (params : TextEmbeddingParams)
| CallTokenizerEncode (params : TokenizeTextParams)
| CallTokenizerDecode (params : DetokenizeTextParams)
| CallTextSmall (params : GenerateTextParams)
| CallTextLarge (params : GenerateTextParams)
| CallImage (params : ImageParams)
| CallImageDescription (params : ImageDescriptionParams)
| CallTranscription (audioBuffer : option (list Byte.byte))
| CallTextToSpeech (text : string)
| CallObjectSmall (params : ObjectGenerationParams)
| CallObjectLarge (params : ObjectGenerationParams).

Inductive Result : Type :=
| ResValue (v : JsValue)
| ResTokens (tokens : list N)
| ResText (text : string)
| ResDescription (d : ImageDescriptionResult)
| ResStream (body : option string).

Definition modelTypeOf (i : Invocation) : ModelType :=
  match i with
  | CallTextEmbedding _ => TEXT_EMBEDDING
  | CallTokenizerEncode _ => TEXT_TOKENIZER_ENCODE
  | CallTokenizerDecode _ => TEXT_TOKENIZER_DECODE
  | CallTextSmall _ => TEXT_SMALL
  | CallTextLarge _ => TEXT_LARGE
  | CallImage _ => IMAGE
  | CallImageDescription _ => IMAGE_DESCRIPTION
  | CallTranscription _ => TRANSCRIPTION
  | CallTextToSpeech _ => TEXT_TO_SPEECH
  | CallObjectSmall _ => OBJECT_SMALL
  | CallObjectLarge _ => OBJECT_LARGE
  end.

(** The handler's value, tagged with its kind. *)
Definition map_value {A B : Type} (f : A -> B) (m : M A) : M B :=
  let* a := m in ret (f a).

(** [elizaosCloudPlugin.models[type](runtime, params)] *)
Definition models (w : World) (i : Invocation) : M Result :=
  match i with
  | CallTextEmbedding p => map_value ResValue (TEXT_EMBEDDING_handler w p)
  | CallTokenizerEncode p => map_value ResTokens (TEXT_TOKENIZER_ENCODE_handler w p)
  | CallTokenizerDecode p => map_value ResText (TEXT_TOKENIZER_DECODE_handler w p)
  | CallTextSmall p => map_value ResText (TEXT_SMALL_handler w p)
  | CallTextLarge p => map_value ResText (TEXT_LARGE_handler w p)
  | CallImage p => map_value ResValue (IMAGE_handler w p)
  | CallImageDescription p => map_value ResDescription (IMAGE_DESCRIPTION_handler w p)
  | CallTranscription b => map_value ResValue (TRANSCRIPTION_handler w b)
  | CallTextToSpeech t => map_value ResStream (TEXT_TO_SPEECH_handler w t)
  | CallObjectSmall p => map_value ResValue (OBJECT_SMALL_handler w p)
  | CallObjectLarge p => map_value ResValue (OBJECT_LARGE_handler w p)
  end.

End Plugin.

(** ** Observations on traces and results *)

Module Observe.
Import Js Regex Effects Plugin.

(** The HTTP requests a computation issued itself, in order. *)
Fixpoint requests (t : list Event) : list Request :=
  match t with
  | [] => []
  | EvFetch req :: rest => req :: requests rest
  | _ :: rest => requests rest
  end.

(** An effect that goes to the upstream API: a request of the handler's
    own or one call into the [ai] package. *)
Definition is_outbound (ev : Event) : bool :=
  match ev with
  | EvFetch _ | EvGenerateText _ | EvGenerateObject _ => true
  | EvEmit _ _ => false
  end.

Fixpoint outbound (t : list Event) : list Event :=
  match t with
  | [] => []
  | ev :: rest => if is_outbound ev then ev :: outbound rest else outbound rest
  end.

(** The usage-accounting events handed to [runtime.emitEvent], in order. *)
Fixpoint emitted (t : list Event) : list (EventType * UsagePayload) :=
  match t with
  | [] => []
  | EvEmit ev payload :: rest => (ev, payload) :: emitted rest
  | _ :: rest => emitted rest
  end.

(** Every member of [VECTOR_DIMS] is a positive array length. *)
Definition array_lengths (dims : list Z) : bool :=
  forallb (fun d => (0 <? d) && (d <? 2 ^ 32))%Z dims.

(** The configured dimension passes the check against [VECTOR_DIMS]. *)
Definition valid_dimension (w : World) : bool :=
  includes (VECTOR_DIMS w) (embeddingDimension w).

(** The vector [first, 0, ..., 0] of length [n]. *)
Definition sentinel_vector (n : Z) (first : Q) : JsValue :=
  JArr (JNum first :: replicate (Z.to_nat n - 1) (JNum 0%Q)).

(** [v.length] of an array. *)
Definition array_length (v : JsValue) : option Z :=
  match v with
  | JArr items => Some (Z.of_nat (length items))
  | _ => None
  end.

(** [v[i]] of an array. *)
Definition array_at (v : JsValue) (i : nat) : option JsValue :=
  match v with
  | JArr items => items !! i
  | _ => None
  end.

(** [data?.data?.[0]?.embedding] *)
Definition payload_embedding (data : JsValue) : JsValue :=
  get_opt (index0_opt (get_opt data "data")) "embedding".

(** The text an embedding request is made for: [None] is the "invalid
    input format" branch. *)
Definition input_text (params : TextEmbeddingParams) : option string :=
  match params with
  | EmbedString s => Some s
  | EmbedObject t => if truthy_str t then Some t else None
  | EmbedNull => None
  end.

(** What the embedding handler returns once it has passed the credential
    check, read off the reply to its request. *)
Definition embedding_reply (w : World) (n : Z) (text : string) : JsValue :=
  match fetch w (embeddingRequest w text) with
  | Thrown _ => sentinel_vector n (6 # 10)%Q
  | Returned response =>
      match resp_text response with
      | Thrown _ => sentinel_vector n (6 # 10)%Q
      | Returned _ =>
          if negb (ok response) then sentinel_vector n (4 # 10)%Q
          else
            match resp_json response with
            | Thrown _ => sentinel_vector n (6 # 10)%Q
            | Returned data =>
                if truthy (payload_embedding data) then payload_embedding data
                else sentinel_vector n (5 # 10)%Q
            end
      end
  end.

(** The usage data of a well-formed reply to an embedding request:
    status 2xx, readable body, an embedding and a truthy [usage]. *)
Definition embedding_usage (w : World) (text : string) : option Usage :=
  match fetch w (embeddingRequest w text) with
  | Returned response =>
      match resp_text response with
      | Returned _ =>
          if ok response then
            match resp_json response with
            | Returned data =>
                if truthy (payload_embedding data) && truthy (get_opt data "usage")
                then Some (mkUsage (get_opt (get_opt data "usage") "prompt_tokens")
                                   (JNum 0%Q)
                                   (get_opt (get_opt data "usage") "total_tokens"))
                else None
            | Thrown _ => None
            end
          else None
      | Thrown _ => None
      end
  | Thrown _ => None
  end.

(** The event [emitModelUsageEvent] hands to the host. *)
Definition usage_event (type : ModelType) (prompt : string) (usage : Usage) : Event :=
  EvEmit MODEL_USED
    (mkUsagePayload "elizaos" type prompt
       (promptTokens usage) (completionTokens usage) (totalTokens usage)).

Definition usage_events (type : ModelType) (prompt : string) (usage : option Usage)
  : list Event :=
  match usage with
  | Some u => [usage_event type prompt u]
  | None => []
  end.

(** The invocation gets past input validation and the credential check
    of its handler, where the handler has one. *)
Definition reaches_network (w : World) (i : Invocation) : bool :=
  match i with
  | CallTextEmbedding p =>
      valid_dimension w
      && match input_text p with
         | Some text => truthy_str (trim text)
         | None => false
         end
      && truthy_opt (getEmbeddingApiKey w)
  | CallTokenizerEncode _ | CallTokenizerDecode _ => false
  | CallTextSmall _ | CallTextLarge _ => true
  | CallObjectSmall _ | CallObjectLarge _ => true
  | CallImage _ => truthy_opt (getApiKey w)
  | CallImageDescription _ => truthy_opt (getApiKey w)
  | CallTranscription audioBuffer =>
      truthy_opt (getApiKey w)
      && match audioBuffer with
         | None | Some [] => false
         | Some _ => true
         end
  | CallTextToSpeech _ => true
  end.

(** The usage data [generateText] hands back for the call of a text
    handler. *)
Definition text_usage (w : World) (modelName : string) (p : GenerateTextParams)
  : option Usage :=
  match generateText w (textCall w modelName p) with
  | Returned res => gt_usage res
  | Thrown _ => None
  end.

(** The usage data [generateObject] hands back for the call of an object
    handler. *)
Definition object_usage (w : World) (getModelFn : World -> string)
    (p : ObjectGenerationParams) : option Usage :=
  match generateObject w (objectCall w p getModelFn) with
  | Returned res => go_usage res
  | Thrown _ => None
  end.

(** [result.choices?.[0]?.message?.content] *)
Definition description_content (result : JsValue) : JsValue :=
  get_opt (get_opt (index0_opt (get_opt result "choices")) "message") "content".

(** The usage data of a reply to an image-description request: status
    2xx, readable body, a JSON value other than [null] with a truthy
    [usage]. *)
Definition description_usage (w : World) (p : ImageDescriptionParams) : option Usage :=
  match fetch w (imageDescriptionRequest w p) with
  | Returned response =>
      match resp_text response with
      | Returned _ =>
          if ok response then
            match resp_json response with
            | Returned JNull | Returned JUndefined | Thrown _ => None
            | Returned result =>
                let usage := get_opt result "usage" in
                if truthy usage
                then Some (mkUsage (get_opt usage "prompt_tokens")
                                   (get_opt usage "completion_tokens")
                                   (get_opt usage "total_tokens"))
                else None
            end
          else None
      | Thrown _ => None
      end
  | Thrown _ => None
  end.

(** The placeholder the image-description handler returns for a failure. *)
Definition failure (reason : string) : ImageDescriptionResult :=
  TitleDescription "Failed to analyze image" reason.

(** The title/description object read off the content of a reply. *)
Definition parse_description (content : string) : ImageDescriptionResult :=
  TitleDescription (or_default (trim <$> title_group content) "Image Analysis")
                   (trim (title_removed content)).

(** What the image-description handler returns once it has passed the
    credential check, read off the reply to its request. *)
Definition description_reply (w : World) (p : ImageDescriptionParams)
  : ImageDescriptionResult :=
  match fetch w (imageDescriptionRequest w p) with
  | Thrown e => failure ("Error: " +:+ message e)
  | Returned response =>
      match resp_text response with
      | Thrown e => failure ("Error: " +:+ message e)
      | Returned _ =>
          if ok response then
            match resp_json response with
            | Thrown e => failure ("Error: " +:+ message e)
            | Returned result =>
                match get result "choices" with
                | Thrown e => failure ("Error: " +:+ message e)
                | Returned _ =>
                    let content := description_content result in
                    if truthy content then
                      if isCustomPrompt p then RawContent content
                      else
                        match content with
                        | JStr s => parse_description s
                        | _ => failure "Error: content.match is not a function"
                        end
                    else failure "No response from API"
                end
            end
          else failure ("Error: ElizaOS API error: " +:+ pretty (status response))
      end
  end.

(** The prompt recorded with the usage of an image description. *)
Definition description_prompt (p : ImageDescriptionParams) : string :=
  match p with
  | DescribeUrl u => u
  | DescribeObject _ prompt => or_default prompt ""
  end.

(** The usage data an invocation reports to the host, with the prompt it
    is reported for; [None] when nothing is reported. *)
Definition reported_usage (w : World) (i : Invocation) : option (string * Usage) :=
  match i with
  | CallTextEmbedding p =>
      match input_text p with
      | Some text =>
          if reaches_network w i
          then (fun u => (text, u)) <$> embedding_usage w text
          else None
      | None => None
      end
  | CallTextSmall p => (fun u => (gp_prompt p, u)) <$> text_usage w (getSmallModel w) p
  | CallTextLarge p => (fun u => (gp_prompt p, u)) <$> text_usage w (getLargeModel w) p
  | CallObjectSmall p => (fun u => (og_prompt p, u)) <$> object_usage w getSmallModel p
  | CallObjectLarge p => (fun u => (og_prompt p, u)) <$> object_usage w getLargeModel p
  | CallImageDescription p =>
      if reaches_network w i
      then (fun u => (description_prompt p, u)) <$> description_usage w p
      else None
  | CallImage _ | CallTranscription _ | CallTextToSpeech _
  | CallTokenizerEncode _ | CallTokenizerDecode _ => None
  end.

(** The [MODEL_USED] event for usage [u] of invocation [i]. *)
Definition usage_report (i : Invocation) (prompt : string) (u : Usage)
  : EventType * UsagePayload :=
  (MODEL_USED,
   mkUsagePayload "elizaos" (modelTypeOf i) prompt
     (promptTokens u) (completionTokens u) (totalTokens u)).

(** The model name both tokenizer functions ask [js-tiktoken] for. *)
Definition tokenizer_model_name (w : World) (model : ModelType) : string :=
  if ModelType_eqb model TEXT_SMALL
  then as_string (nullish_or (nullish_or (env w !! "ELIZAOS_SMALL_MODEL")
                                         (env w !! "SMALL_MODEL"))
                             (Some "gpt-4o"))
  else as_string (nullish_or (nullish_or (env w !! "ELIZAOS_LARGE_MODEL")
                                         (env w !! "LARGE_MODEL"))
                             (Some "gpt-5-mini")).

(** The model name the generation handlers of a family use. *)
Definition handler_model_name (w : World) (model : ModelType) : string :=
  if ModelType_eqb model TEXT_SMALL then getSmallModel w else getLargeModel w.

(** A key cannot be resolved: the lookup is nullish or the empty string. *)
Definition unresolvable (w : World) (key : string) : Prop :=
  truthy_opt (getSetting w key None) = false.

(** The values of [VECTOR_DIMS] in [@elizaos/core], and worlds to run the
    handlers in. *)
Definition core_VECTOR_DIMS : list Z := [384; 512; 768; 1024; 1536; 3072]%Z.

Definition no_encoding (name : string) : Outcome Encoding := Thrown (Error "Unknown model").

Definition no_network {A : Type} (req : A) : Outcome Response :=
  Thrown (mkError TypeError "fetch failed").

Definition no_sdk {A B : Type} (call : A) : Outcome B :=
  Thrown (Error "sdk unavailable").

Definition no_json (s : string) : Outcome JsValue :=
  Thrown (mkError PlainError "Unexpected token").

(** A host with the given runtime settings and environment whose every
    request is answered by [net]. *)
Definition host (rt envv : gmap string string) (net : Request -> Outcome Response) : World :=
  mkWorld rt envv None core_VECTOR_DIMS net no_sdk no_sdk no_encoding no_json.

Definition respond (st : N) (stText : string) (txt : string) (json : Outcome JsValue)
  : Request -> Outcome Response :=
  fun _ => Returned (mkResponse st stText (Returned txt) json (Some txt)).

(** A stand-in for [js-tiktoken]: every known model has its own
    vocabulary, a code unit shifted by an offset. *)
Fixpoint code_units (s : string) : list N :=
  match s with
  | String c s' => N_of_ascii c :: code_units s'
  | EmptyString => []
  end.

Fixpoint of_code_units (l : list N) : string :=
  match l with
  | n :: l' => String (ascii_of_N n) (of_code_units l')
  | [] => EmptyString
  end.

Definition shifted (k : N) : Encoding :=
  mkEncoding (fun s => Returned (map (N.add k) (code_units s)))
             (fun toks => of_code_units (map (fun t => (t - k)%N) toks)).

Definition toy_tiktoken (name : string) : Outcome Encoding :=
  if String.eqb name "gpt-4o" then Returned (shifted 0)
  else if String.eqb name "gpt-5-mini" then Returned (shifted 1000)
  else if String.eqb name "gpt-3.5-turbo" then Returned (shifted 2000)
  else Thrown (Error "Unknown model").

(** A host without network whose tokenizer library is [toy_tiktoken]. *)
Definition tokenizer_host (rt envv : gmap string string) : World :=
  mkWorld rt envv None core_VECTOR_DIMS no_network no_sdk no_sdk toy_tiktoken no_json.

(** A host whose [ai] package answers every [generateText] call with
    [answer]. *)
Definition sdk_host (rt envv : gmap string string)
    (answer : Outcome GenerateTextResult) : World :=
  mkWorld rt envv None core_VECTOR_DIMS no_network (fun _ => answer) no_sdk
    no_encoding no_json.

(** Concrete settings and replies. *)
Definition keyed : gmap string string := {["ELIZAOS_API_KEY" := "sk-test"]}.

Definition usage_json : JsValue :=
  JObj [("prompt_tokens", JNum 3%Q); ("completion_tokens", JNum 5%Q);
        ("total_tokens", JNum 8%Q)].


(** A 2xx reply that carries usage data and no embedding. *)
Definition usage_only_reply : JsValue := JObj [("usage", usage_json)].

(** A 2xx image-generation reply that carries usage data. *)
Definition image_reply : JsValue :=
  JObj [("data", JArr [JObj [("url", JStr "https://img.example/1.png")]]);
        ("usage", usage_json)].

(** A 2xx chat-completion reply with the given content. *)
Definition chat_reply (content : string) : JsValue :=
  JObj [("choices", JArr [JObj [("message", JObj [("content", JStr content)])]])].


(** Hosts used to run the handlers: without credentials and network; with
    the general API key and an upstream that answers every request with a
    fixed reply. *)
Definition offline : World := host ∅ ∅ no_network.

Definition upstream (st : N) (stText : string) (txt : string) (json : Outcome JsValue)
  : World :=
  host ∅ keyed (respond st stText txt json).

(** Every code unit of [s] satisfies [f]. *)
Fixpoint all_chars (f : ascii -> bool) (s : string) : bool :=
  match s with
  | String c s' => f c && all_chars f s'
  | EmptyString => true
  end.


End Observe.

(** ** Start-up check and the plugin's own connectivity test *)

Module Startup.
Import Js Effects Plugin.

(** [fetch(`${baseURL}/models`, { headers: { Authorization } })] *)
Definition modelsRequest (w : World) : Request :=
  mkRequest (getBaseURL w +:+ "/models") "GET"
    [("Authorization", "Bearer " +:+ interpolate (getApiKey w))]
    NoBody.

(** The body of the promise [init] starts and does not wait for.  After
    [response.json()] the code only feeds [logger]; an exception there is
    caught by the same inner handler. *)
Definition init_background (w : World) : M unit :=
  try_catch
    (if negb (truthy_opt (getApiKey w)) then ret tt
     else
       try_catch
         (let req := modelsRequest w in
          let* response := perform (EvFetch req) (fetch w req) in
          if negb (ok response) then ret tt
          else
            let* data := lift (resp_json response) in
            ret tt)
         (fun fetchError => ret tt))
    (fun error => ret tt).

(** [tests[0].tests[0].fn]: [elizaos_test_url_and_api_key_validation] *)
Definition test_url_and_api_key_validation (w : World) : M unit :=
  let req := modelsRequest w in
  let* response := perform (EvFetch req) (fetch w req) in
  let* data := lift (resp_json response) in
  if negb (ok response) then
    throw (Error ("Failed to validate ElizaOS API key: " +:+ statusText response))
  else ret tt.

End Startup.

(** ** Vocabulary for the properties of the remaining code *)

Module Probe.
Import Js Regex Effects Plugin Observe.

(** The world [w] with other runtime settings. *)
Definition with_settings (w : World) (rt : gmap string string) : World :=
  mkWorld rt (env w) (character_system w) (VECTOR_DIMS w) (fetch w)
    (generateText w) (generateObject w) (encodingForModel w) (JSON_parse w).

(** The first of several lookups that is not nullish. *)
Fixpoint first_resolved (candidates : list (option string)) : option string :=
  match candidates with
  | [] => None
  | Some v :: _ => Some v
  | None :: rest => first_resolved rest
  end.

(** [c] is the letter [lo] in either case. *)
Definition letter (lo up c : ascii) : bool := Ascii.eqb c lo || Ascii.eqb c up.

(** [s] is the word "true" in any mix of cases, and nothing else. *)
Definition spells_true (s : string) : bool :=
  match s with
  | String a (String b (String c (String d EmptyString))) =>
      letter "t" "T" a && letter "r" "R" b && letter "u" "U" c && letter "e" "E" d
  | _ => false
  end.

(** A field of the JSON body of a request. *)
Definition body_field (req : Request) (k : string) : option JsValue :=
  match body req with
  | JsonBody (JObj fields) => assoc k fields
  | _ => None
  end.

(** A header of a request. *)
Fixpoint header_in (hs : list (string * string)) (k : string) : option string :=
  match hs with
  | [] => None
  | (k', v) :: rest => if String.eqb k k' then Some v else header_in rest k
  end.

Definition header (req : Request) (k : string) : option string :=
  header_in (headers req) k.

Definition backtick : ascii := ascii_of_N 96.

Definition not_backtick (c : ascii) : bool := negb (Ascii.eqb c backtick).

(** The object-generation parameters [p] with another schema. *)
Definition with_schema (p : ObjectGenerationParams) (schema : option JsValue)
  : ObjectGenerationParams :=
  mkObjectGenerationParams (og_prompt p) (og_temperature p) schema.

(** A [JSONParseError] of the [ai] package carrying the unparsable text. *)
Definition parse_error (text msg : string) : JsError := mkError (JSONParseError text) msg.

(** A tokenizer library that knows no model at all. *)
Definition bare_host (rt envv : gmap string string) : World :=
  mkWorld rt envv None core_VECTOR_DIMS no_network no_sdk no_sdk no_encoding no_json.

(** A host whose [ai] package fails every [generateObject] call with a JSON
    parse error on [text] and whose [JSON.parse] accepts exactly [good]. *)
Definition repairing_host (text good : string) (v : JsValue) : World :=
  mkWorld ∅ keyed None core_VECTOR_DIMS no_network no_sdk
    (fun _ => Thrown (parse_error text "could not parse the response"))
    no_encoding
    (fun s => if String.eqb s good then Returned v else no_json s).

End Probe.

(** ** The configuration as its user states it

    The properties that speak of "the configured dimension", "the resolved
    base URL" or "no resolvable key" are stated against the two stores a
    user fills, the runtime settings and the process environment, and not
    against the plugin's own getters. *)

Module Config.
Import Js Regex Effects Plugin Observe Probe.

(** What the configuration holds for a key: the runtime setting, else the
    environment variable; [None] when neither is set. *)
Definition configured (w : World) (key : string) : option string :=
  first_resolved [settings w !! key; env w !! key].

(** The configured embedding dimension: the number that
    [ELIZAOS_EMBEDDING_DIMENSIONS] starts with, 1536 when the key is unset
    or empty. *)
Definition configured_dimension (w : World) : option Z :=
  match configured w "ELIZAOS_EMBEDDING_DIMENSIONS" with
  | Some (String c s) => parseInt10 (String c s)
  | _ => Some 1536%Z
  end.

(** The configured dimension is one of [VECTOR_DIMS]. *)
Definition supported_dimension (w : World) : bool :=
  includes (VECTOR_DIMS w) (configured_dimension w).














(** Configurations away from the defaults: an embedding dimension of 384,
    with and without a key, and a base URL of one's own. *)
Definition dimension_384 : gmap string string :=
  {["ELIZAOS_EMBEDDING_DIMENSIONS" := "384"]}.

Definition keyed_384 : gmap string string :=
  <["ELIZAOS_EMBEDDING_DIMENSIONS" := "384"]> keyed.


End Config.

(** * Properties *)

Import Js Regex Effects Plugin Observe Startup Probe Config.

(** ** Facts about the primitives *)

Lemma truthy_not_nullish (v : JsValue) (k : string) :
  truthy v = true -> get v k = Returned (get_opt v k).
Proof. destruct v; simpl; intros H; try discriminate; reflexivity. Qed.

Lemma get_opt_some_object (v : JsValue) (k : string) :
  get_opt v k <> JUndefined -> exists fields, v = JObj fields.
Proof. destruct v; simpl; intros H; try congruence. eauto. Qed.

Lemma payload_embedding_object (data : JsValue) :
  truthy (payload_embedding data) = true ->
  get data "usage" = Returned (get_opt data "usage").
Proof.
  unfold payload_embedding. intros H.
  destruct data; simpl in H; try discriminate. reflexivity.
Qed.

Lemma dimension_in_range (w : World) :
  array_lengths (VECTOR_DIMS w) = true ->
  valid_dimension w = true ->
  exists n, embeddingDimension w = Some n /\ (0 < n < 2 ^ 32)%Z.
Proof.
  unfold valid_dimension, includes, array_lengths. intros Hdims Hvalid.
  destruct (embeddingDimension w) as [n|]; [|discriminate].
  exists n. split; [reflexivity|].
  apply bool_decide_eq_true in Hvalid. apply list_elem_of_In in Hvalid.
  rewrite forallb_forall in Hdims. specialize (Hdims n Hvalid).
  apply andb_true_iff in Hdims as [H1 H2]. lia.
Qed.

Lemma sentinel_run (n : Z) (first : Q) :
  (0 < n < 2 ^ 32)%Z ->
  sentinel (Some n) first = ([], Returned (sentinel_vector n first)).
Proof.
  intros Hn. unfold sentinel, Array_fill0, sentinel_vector.
  replace ((0 <=? n)%Z && (n <? 2 ^ 32)%Z) with true
    by (symmetry; apply andb_true_iff; split; lia).
  destruct (Z.to_nat n) as [|k] eqn:Hk; [lia|].
  simpl. rewrite Nat.sub_0_r. reflexivity.
Qed.

Lemma sentinel_vector_shape (n : Z) (first : Q) :
  (0 < n)%Z ->
  array_length (sentinel_vector n first) = Some n
  /\ array_at (sentinel_vector n first) 0 = Some (JNum first)
  /\ forall i, (0 < i < Z.to_nat n)%nat ->
       array_at (sentinel_vector n first) i = Some (JNum 0%Q).
Proof.
  intros Hn. unfold sentinel_vector, array_length, array_at. simpl.
  rewrite length_replicate. repeat split.
  - f_equal. lia.
  - intros i Hi. destruct i as [|i]; [lia|]. simpl.
    apply lookup_replicate_2. lia.
Qed.

(** ** The getters against the configuration *)

Lemma getSetting_configured (w : World) (key : string) (d : option string) :
  getSetting w key d = match configured w key with Some v => Some v | None => d end.
Proof.
  unfold getSetting, configured, nullish_or. simpl.
  destruct (settings w !! key); [reflexivity|].
  destruct (env w !! key); reflexivity.
Qed.

Lemma embeddingDimension_configured (w : World) :
  embeddingDimension w = configured_dimension w.
Proof.
  unfold embeddingDimension, configured_dimension. rewrite getSetting_configured.
  destruct (configured w "ELIZAOS_EMBEDDING_DIMENSIONS") as [[|c s]|]; reflexivity.
Qed.

Lemma valid_dimension_supported (w : World) :
  valid_dimension w = supported_dimension w.
Proof.
  unfold valid_dimension, supported_dimension.
  rewrite embeddingDimension_configured. reflexivity.
Qed.



Lemma getApiKey_configured (w : World) : getApiKey w = configured w "ELIZAOS_API_KEY".
Proof.
  unfold getApiKey. rewrite getSetting_configured.
  destruct (configured w "ELIZAOS_API_KEY"); reflexivity.
Qed.


Lemma unresolvable_configured (w : World) (key : string) :
  unresolvable w key <-> truthy_opt (configured w key) = false.
Proof.
  unfold unresolvable. rewrite getSetting_configured.
  destruct (configured w key); reflexivity.
Qed.


(** ** The embedding handler, path by path *)

Lemma embedding_invalid_dimension (w : World) (p : TextEmbeddingParams) :
  valid_dimension w = false ->
  exists msg, TEXT_EMBEDDING_handler w p = ([], Thrown (Error msg)).
Proof.
  unfold valid_dimension, TEXT_EMBEDDING_handler. intros ->. simpl. eauto.
Qed.

Lemma embedding_missing_key (w : World) (p : TextEmbeddingParams) (text : string) :
  valid_dimension w = true ->
  input_text p = Some text -> truthy_str (trim text) = true ->
  truthy_opt (getEmbeddingApiKey w) = false ->
  TEXT_EMBEDDING_handler w p = ([], Thrown (Error "ElizaOS API key not configured")).
Proof.
  unfold valid_dimension, TEXT_EMBEDDING_handler. intros -> Htext Hblank Hkey.
  destruct p as [|s|t]; simpl in *; [discriminate| |].
  - injection Htext as ->. rewrite Hblank, Hkey. reflexivity.
  - rewrite Htext, Hblank, Hkey. reflexivity.
Qed.

Section EmbeddingPaths.

(** A world whose configured dimension [n] passes the check and is a
    positive array length. *)
Variable w : World.
Variable n : Z.
Hypothesis dimension_valid : valid_dimension w = true.
Hypothesis dimension_value : embeddingDimension w = Some n.
Hypothesis dimension_range : (0 < n < 2 ^ 32)%Z.

Lemma handler_past_dimension_check (rest : M JsValue) :
  (if negb (includes (VECTOR_DIMS w) (Plugin.embeddingDimension w))
   then throw (Error ("Invalid embedding dimension: "
                      +:+ show_int (Plugin.embeddingDimension w)
                      +:+ ". Must be one of: " +:+ join_ints (VECTOR_DIMS w)))
   else rest) = rest.
Proof.
  unfold valid_dimension in dimension_valid. rewrite dimension_valid. reflexivity.
Qed.

Lemma embedding_null :
  TEXT_EMBEDDING_handler w EmbedNull = ([], Returned (sentinel_vector n (1 # 10)%Q)).
Proof.
  unfold TEXT_EMBEDDING_handler. rewrite handler_past_dimension_check.
  rewrite dimension_value. apply sentinel_run, dimension_range.
Qed.

Lemma embedding_invalid_input (p : TextEmbeddingParams) :
  p <> EmbedNull -> input_text p = None ->
  TEXT_EMBEDDING_handler w p = ([], Returned (sentinel_vector n (2 # 10)%Q)).
Proof.
  intros Hp Htext.
  unfold TEXT_EMBEDDING_handler. rewrite handler_past_dimension_check.
  rewrite dimension_value.
  destruct p as [|s|t]; simpl in *; [congruence|discriminate|].
  rewrite Htext. apply sentinel_run, dimension_range.
Qed.

Lemma embedding_blank_text (p : TextEmbeddingParams) (text : string) :
  input_text p = Some text -> truthy_str (trim text) = false ->
  TEXT_EMBEDDING_handler w p = ([], Returned (sentinel_vector n (3 # 10)%Q)).
Proof.
  intros Htext Hblank.
  unfold TEXT_EMBEDDING_handler. rewrite handler_past_dimension_check.
  rewrite dimension_value.
  destruct p as [|s|t]; simpl in *; [discriminate| |].
  - injection Htext as ->. rewrite Hblank. simpl. apply sentinel_run, dimension_range.
  - rewrite Htext, Hblank. simpl. apply sentinel_run, dimension_range.
Qed.

Lemma embedding_network_phase (p : TextEmbeddingParams) (text : string) :
  input_text p = Some text -> truthy_str (trim text) = true ->
  truthy_opt (getEmbeddingApiKey w) = true ->
  TEXT_EMBEDDING_handler w p =
    (EvFetch (embeddingRequest w text)
       :: usage_events TEXT_EMBEDDING text (embedding_usage w text),
     Returned (embedding_reply w n text)).
Proof.
  intros Htext Hblank Hkey.
  assert (Hbody : TEXT_EMBEDDING_handler w (EmbedString text) =
    (EvFetch (embeddingRequest w text)
       :: usage_events TEXT_EMBEDDING text (embedding_usage w text),
     Returned (embedding_reply w n text))).
  { unfold TEXT_EMBEDDING_handler.
    rewrite handler_past_dimension_check.
    unfold embedding_reply, embedding_usage.
    rewrite dimension_value, Hblank, Hkey. simpl.
    unfold perform, try_catch, bind, lift.
    destruct (fetch w (embeddingRequest w text)) as [response|e]; simpl.
    2: { rewrite (sentinel_run n _ dimension_range). reflexivity. }
    destruct (resp_text response) as [raw|e]; simpl.
    2: { rewrite (sentinel_run n _ dimension_range). reflexivity. }
    destruct (ok response); simpl.
    2: { rewrite (sentinel_run n _ dimension_range). reflexivity. }
    destruct (resp_json response) as [data|e]; simpl.
    2: { rewrite (sentinel_run n _ dimension_range). reflexivity. }
    fold (payload_embedding data).
    destruct (truthy (payload_embedding data)) eqn:Hemb; simpl.
    2: { rewrite (sentinel_run n _ dimension_range). reflexivity. }
    rewrite (payload_embedding_object data Hemb). simpl.
    destruct (truthy (get_opt data "usage")) eqn:Husage; simpl.
    - rewrite !(truthy_not_nullish _ _ Husage). reflexivity.
    - reflexivity. }
  destruct p as [|s|t]; simpl in Htext.
  - discriminate.
  - injection Htext as ->. exact Hbody.
  - destruct (truthy_str t) eqn:Ht; [|discriminate]. injection Htext as ->.
    rewrite <- Hbody. unfold TEXT_EMBEDDING_handler. rewrite Ht. reflexivity.
Qed.

End EmbeddingPaths.

(** ** Traces of the handlers *)

Arguments getSetting : simpl never.
Arguments getBaseURL : simpl never.
Arguments getEmbeddingBaseURL : simpl never.
Arguments getApiKey : simpl never.
Arguments getEmbeddingApiKey : simpl never.
Arguments embeddingRequest : simpl never.
Arguments imageRequest : simpl never.
Arguments transcriptionRequest : simpl never.
Arguments speechRequest : simpl never.
Arguments imageDescriptionRequest : simpl never.
Arguments textCall : simpl never.
Arguments objectCall : simpl never.
Arguments Plugin.embeddingDimension : simpl never.
Arguments trim : simpl never.
Arguments title_group : simpl never.
Arguments title_removed : simpl never.
Arguments strip_fences : simpl never.
Arguments pretty : simpl never.
Arguments Array_fill0 : simpl never.

(** Case analysis on whatever the computation branches on next. *)
Ltac branch :=
  match goal with
  | |- context [match ?x with _ => _ end] =>
      match x with
      | context [match _ with _ => _ end] => fail 1
      | _ => destruct x eqn:?
      end
  end.

Ltac run_handler :=
  unfold bind, try_catch, perform, lift, ret, throw, map_value, sentinel,
    emitModelUsageEvent, trace, completion;
  repeat (simpl; try branch).

Lemma image_trace (w : World) (p : ImageParams) :
  trace (IMAGE_handler w p) =
    if truthy_opt (getApiKey w) then [EvFetch (imageRequest w p)] else [].
Proof.
  unfold IMAGE_handler. destruct (truthy_opt (getApiKey w)); run_handler; reflexivity.
Qed.

Lemma transcription_trace (w : World) (audioBuffer : option (list Byte.byte)) :
  trace (TRANSCRIPTION_handler w audioBuffer) =
    match audioBuffer with
    | Some (b :: bytes) =>
        if truthy_opt (getApiKey w) then [EvFetch (transcriptionRequest w (b :: bytes))]
        else []
    | _ => []
    end.
Proof.
  unfold TRANSCRIPTION_handler.
  destruct (truthy_opt (getApiKey w)), audioBuffer as [[|b bytes]|];
    run_handler; reflexivity.
Qed.

Lemma speech_trace (w : World) (text : string) :
  trace (TEXT_TO_SPEECH_handler w text) = [EvFetch (speechRequest w text)].
Proof.
  unfold TEXT_TO_SPEECH_handler, fetchTextToSpeech. run_handler; reflexivity.
Qed.

Lemma text_small_trace (w : World) (p : GenerateTextParams) :
  trace (TEXT_SMALL_handler w p) =
    EvGenerateText (textCall w (getSmallModel w) p)
      :: usage_events TEXT_SMALL (gp_prompt p) (text_usage w (getSmallModel w) p).
Proof.
  unfold TEXT_SMALL_handler, text_usage. run_handler; reflexivity.
Qed.

Lemma text_large_trace (w : World) (p : GenerateTextParams) :
  trace (TEXT_LARGE_handler w p) =
    EvGenerateText (textCall w (getLargeModel w) p)
      :: usage_events TEXT_LARGE (gp_prompt p) (text_usage w (getLargeModel w) p).
Proof.
  unfold TEXT_LARGE_handler, text_usage. run_handler; reflexivity.
Qed.

Lemma object_trace (w : World) (p : ObjectGenerationParams) (type : ModelType)
    (getModelFn : World -> string) :
  trace (generateObjectByModelType w p type getModelFn) =
    EvGenerateObject (objectCall w p getModelFn)
      :: usage_events type (og_prompt p) (object_usage w getModelFn p).
Proof.
  unfold generateObjectByModelType, object_usage. run_handler; reflexivity.
Qed.

Lemma tokenizer_traces (w : World) (p : TokenizeTextParams) (q : DetokenizeTextParams) :
  trace (TEXT_TOKENIZER_ENCODE_handler w p) = []
  /\ trace (TEXT_TOKENIZER_DECODE_handler w q) = [].
Proof. split; reflexivity. Qed.

Lemma description_network_phase (w : World) (p : ImageDescriptionParams) :
  truthy_opt (getApiKey w) = true ->
  IMAGE_DESCRIPTION_handler w p =
    (EvFetch (imageDescriptionRequest w p)
       :: usage_events IMAGE_DESCRIPTION (description_prompt p) (description_usage w p),
     Returned (description_reply w p)).
Proof.
  intros Hkey.
  unfold IMAGE_DESCRIPTION_handler, description_reply, description_usage.
  rewrite Hkey. simpl.
  unfold perform, try_catch, bind, lift.
  destruct (fetch w (imageDescriptionRequest w p)) as [response|e]; simpl; [|reflexivity].
  destruct (resp_text response) as [raw|e]; simpl; [|reflexivity].
  destruct (ok response); simpl; [|reflexivity].
  destruct (resp_json response) as [result|e]; simpl; [|reflexivity].
  unfold description_content.
  destruct result as [| |b|q|s|items|fields]; simpl; try reflexivity.
  set (content := get_opt (get_opt (index0_opt (default JUndefined (assoc "choices" fields)))
                                   "message") "content").
  set (usage := default JUndefined (assoc "usage" fields)).
  clearbody content usage.
  fold (description_prompt p).
  destruct (truthy usage) eqn:Husage; simpl.
  - rewrite !(truthy_not_nullish _ _ Husage). simpl.
    destruct (truthy content) eqn:Hcontent; simpl; [|reflexivity].
    destruct (isCustomPrompt p); simpl; [reflexivity|].
    destruct content; reflexivity.
  - destruct (truthy content) eqn:Hcontent; simpl; [|reflexivity].
    destruct (isCustomPrompt p); simpl; [reflexivity|].
    destruct content; reflexivity.
Qed.

Lemma description_missing_key (w : World) (p : ImageDescriptionParams) :
  truthy_opt (getApiKey w) = false ->
  IMAGE_DESCRIPTION_handler w p = ([], Returned (failure "API key not configured")).
Proof. unfold IMAGE_DESCRIPTION_handler. intros ->. reflexivity. Qed.

Lemma sentinel_pure (d : option Z) (first : Q) :
  exists o, sentinel d first = ([], o).
Proof.
  unfold sentinel, bind, lift, ret. destruct (Array_fill0 d); simpl; eauto.
Qed.

Lemma embedding_string_trace (w : World) (text : string) :
  valid_dimension w = true -> truthy_str (trim text) = true ->
  truthy_opt (getEmbeddingApiKey w) = true ->
  trace (TEXT_EMBEDDING_handler w (EmbedString text)) =
    EvFetch (embeddingRequest w text)
      :: usage_events TEXT_EMBEDDING text (embedding_usage w text).
Proof.
  unfold valid_dimension. intros Hvalid Hblank Hkey.
  unfold TEXT_EMBEDDING_handler, embedding_usage.
  rewrite Hvalid, Hblank, Hkey. simpl.
  unfold perform, try_catch, bind, lift.
  destruct (sentinel_pure (Plugin.embeddingDimension w) (4 # 10)%Q) as [o4 H4].
  destruct (sentinel_pure (Plugin.embeddingDimension w) (5 # 10)%Q) as [o5 H5].
  destruct (sentinel_pure (Plugin.embeddingDimension w) (6 # 10)%Q) as [o6 H6].
  rewrite H4, H5, H6.
  destruct (fetch w (embeddingRequest w text)) as [response|e]; simpl; [|reflexivity].
  destruct (resp_text response) as [raw|e]; simpl; [|reflexivity].
  destruct (ok response); simpl.
  2: { destruct o4; reflexivity. }
  destruct (resp_json response) as [data|e]; simpl; [|reflexivity].
  fold (payload_embedding data).
  destruct (truthy (payload_embedding data)) eqn:Hemb; simpl.
  2: { destruct o5; reflexivity. }
  rewrite (payload_embedding_object data Hemb). simpl.
  destruct (truthy (get_opt data "usage")) eqn:Husage; simpl.
  - rewrite !(truthy_not_nullish _ _ Husage). reflexivity.
  - reflexivity.
Qed.

Lemma embedding_trace (w : World) (p : TextEmbeddingParams) :
  trace (TEXT_EMBEDDING_handler w p) =
    match input_text p with
    | Some text =>
        if reaches_network w (CallTextEmbedding p)
        then EvFetch (embeddingRequest w text)
               :: usage_events TEXT_EMBEDDING text (embedding_usage w text)
        else []
    | None => []
    end.
Proof.
  unfold reaches_network.
  destruct (valid_dimension w) eqn:Hvalid.
  2: { destruct (embedding_invalid_dimension w p Hvalid) as [msg ->].
       simpl. destruct (input_text p); reflexivity. }
  assert (Hstring : forall text,
    trace (TEXT_EMBEDDING_handler w (EmbedString text)) =
      if true && truthy_str (trim text) && truthy_opt (getEmbeddingApiKey w)
      then EvFetch (embeddingRequest w text)
             :: usage_events TEXT_EMBEDDING text (embedding_usage w text)
      else []).
  { intros text. simpl.
    destruct (truthy_str (trim text)) eqn:Hblank; simpl.
    - destruct (truthy_opt (getEmbeddingApiKey w)) eqn:Hkey.
      + apply embedding_string_trace; assumption.
      + rewrite (embedding_missing_key w (EmbedString text) text); auto.
    - unfold TEXT_EMBEDDING_handler. unfold valid_dimension in Hvalid.
      rewrite Hvalid, Hblank. simpl.
      destruct (sentinel_pure (Plugin.embeddingDimension w) (3 # 10)%Q) as [o ->].
      reflexivity. }
  destruct p as [|s|t]; simpl input_text.
  - unfold TEXT_EMBEDDING_handler. unfold valid_dimension in Hvalid. rewrite Hvalid.
    simpl. destruct (sentinel_pure (Plugin.embeddingDimension w) (1 # 10)%Q) as [o ->].
    reflexivity.
  - apply Hstring.
  - destruct (truthy_str t) eqn:Ht.
    + rewrite <- Hstring. unfold TEXT_EMBEDDING_handler. rewrite Ht. reflexivity.
    + unfold TEXT_EMBEDDING_handler. unfold valid_dimension in Hvalid.
      rewrite Hvalid, Ht. simpl.
      destruct (sentinel_pure (Plugin.embeddingDimension w) (2 # 10)%Q) as [o ->].
      reflexivity.
Qed.

Lemma trace_map_value {A B : Type} (f : A -> B) (m : M A) :
  trace (map_value f m) = trace m.
Proof.
  destruct m as [t [a|e]]; unfold map_value, bind, ret, trace; simpl; [|reflexivity].
  apply app_nil_r.
Qed.

Lemma completion_map_value {A B : Type} (f : A -> B) (m : M A) :
  completion (map_value f m) =
    match completion m with
    | Returned a => Returned (f a)
    | Thrown e => Thrown e
    end.
Proof. destruct m as [t [a|e]]; reflexivity. Qed.

Lemma outbound_usage_events (type : ModelType) (prompt : string) (u : option Usage) :
  outbound (usage_events type prompt u) = [].
Proof. destruct u; reflexivity. Qed.

Lemma requests_usage_events (type : ModelType) (prompt : string) (u : option Usage) :
  requests (usage_events type prompt u) = [].
Proof. destruct u; reflexivity. Qed.

Lemma emitted_usage_events (type : ModelType) (prompt : string) (u : option Usage) :
  emitted (usage_events type prompt u) =
    match u with
    | Some u =>
        [(MODEL_USED,
          mkUsagePayload "elizaos" type prompt
            (promptTokens u) (completionTokens u) (totalTokens u))]
    | None => []
    end.
Proof. destruct u; reflexivity. Qed.

(** The trace of every entry of the [models] table. *)
Lemma models_trace (w : World) (i : Invocation) :
  trace (models w i) =
    match i with
    | CallTextEmbedding p =>
        match input_text p with
        | Some text =>
            if reaches_network w i
            then EvFetch (embeddingRequest w text)
                   :: usage_events TEXT_EMBEDDING text (embedding_usage w text)
            else []
        | None => []
        end
    | CallTokenizerEncode _ | CallTokenizerDecode _ => []
    | CallTextSmall p =>
        EvGenerateText (textCall w (getSmallModel w) p)
          :: usage_events TEXT_SMALL (gp_prompt p) (text_usage w (getSmallModel w) p)
    | CallTextLarge p =>
        EvGenerateText (textCall w (getLargeModel w) p)
          :: usage_events TEXT_LARGE (gp_prompt p) (text_usage w (getLargeModel w) p)
    | CallImage p => if reaches_network w i then [EvFetch (imageRequest w p)] else []
    | CallImageDescription p =>
        if reaches_network w i
        then EvFetch (imageDescriptionRequest w p)
               :: usage_events IMAGE_DESCRIPTION (description_prompt p)
                    (description_usage w p)
        else []
    | CallTranscription audioBuffer =>
        if reaches_network w i
        then [EvFetch (transcriptionRequest w (default [] audioBuffer))]
        else []
    | CallTextToSpeech text => [EvFetch (speechRequest w text)]
    | CallObjectSmall p =>
        EvGenerateObject (objectCall w p getSmallModel)
          :: usage_events OBJECT_SMALL (og_prompt p) (object_usage w getSmallModel p)
    | CallObjectLarge p =>
        EvGenerateObject (objectCall w p getLargeModel)
          :: usage_events OBJECT_LARGE (og_prompt p) (object_usage w getLargeModel p)
    end.
Proof.
  destruct i; unfold models; rewrite trace_map_value.
  - apply embedding_trace.
  - reflexivity.
  - reflexivity.
  - apply text_small_trace.
  - apply text_large_trace.
  - apply image_trace.
  - unfold reaches_network. destruct (truthy_opt (getApiKey w)) eqn:Hkey.
    + rewrite (description_network_phase w params Hkey). reflexivity.
    + rewrite (description_missing_key w params Hkey). reflexivity.
  - rewrite transcription_trace. unfold reaches_network.
    destruct audioBuffer as [[|b bytes]|], (truthy_opt (getApiKey w)); reflexivity.
  - apply speech_trace.
  - apply object_trace.
  - apply object_trace.
Qed.

(** ** One request per invocation *)

Lemma outbound_cons_usage (ev : Event) (type : ModelType) (prompt : string)
    (u : option Usage) :
  is_outbound ev = true ->
  outbound (ev :: usage_events type prompt u) = [ev].
Proof. intros H. simpl. rewrite H, outbound_usage_events. reflexivity. Qed.






(** ** Usage accounting *)

(** Claim C8 as the code has it.  An invocation hands the host exactly one
    [MODEL_USED] event (provider ['elizaos'], its own model type, the prompt,
    the prompt/completion/total token counts) when it reports usage, and no
    event otherwise.  Usage is reported by the text and object handlers when
    the [ai] package returns usage data, by the image-description handler
    when a 2xx reply carries a truthy [usage], and by the embedding handler
    when a 2xx reply carries both an embedding and a truthy [usage] (with a
    completion count of 0).  The image, transcription, speech and tokenizer
    handlers never report usage. *)
Theorem usage_events_emitted (w : World) (i : Invocation) :
  emitted (trace (models w i)) =
    match reported_usage w i with
    | Some (prompt, u) => [usage_report i prompt u]
    | None => []
    end.
Proof.
  rewrite models_trace. unfold reported_usage, usage_report.
  destruct i as [p|p|p|p|p|p|p|b|t|p|p]; simpl modelTypeOf.
  - destruct (input_text p) as [text|]; [|reflexivity].
    destruct (reaches_network w (CallTextEmbedding p)); [|reflexivity].
    simpl. rewrite emitted_usage_events.
    destruct (embedding_usage w text); reflexivity.
  - reflexivity.
  - reflexivity.
  - simpl. rewrite emitted_usage_events.
    destruct (text_usage w (getSmallModel w) p); reflexivity.
  - simpl. rewrite emitted_usage_events.
    destruct (text_usage w (getLargeModel w) p); reflexivity.
  - destruct (reaches_network w (CallImage p)); reflexivity.
  - destruct (reaches_network w (CallImageDescription p)); [|reflexivity].
    simpl. rewrite emitted_usage_events.
    destruct (description_usage w p); reflexivity.
  - destruct (reaches_network w (CallTranscription b)); reflexivity.
  - reflexivity.
  - simpl. rewrite emitted_usage_events.
    destruct (object_usage w getSmallModel p); reflexivity.
  - simpl. rewrite emitted_usage_events.
    destruct (object_usage w getLargeModel p); reflexivity.
Qed.

(** Claim C8 as stated fails: a 2xx embedding reply with token-usage data
    but without an embedding yields the 0.5 sentinel and no event, and the
    image handler ignores the usage data of its reply. *)
Lemma usage_data_without_event :
  let w := host ∅ keyed (respond 200 "OK" "" (Returned usage_only_reply)) in
  let w' := host ∅ keyed (respond 200 "OK" "" (Returned image_reply)) in
  fetch w (embeddingRequest w "hello")
    = Returned (mkResponse 200 "OK" (Returned "") (Returned usage_only_reply) (Some ""))
  /\ truthy (get_opt usage_only_reply "usage") = true
  /\ emitted (trace (models w (CallTextEmbedding (EmbedString "hello")))) = []
  /\ truthy (get_opt image_reply "usage") = true
  /\ emitted (trace (models w' (CallImage (mkImageParams "a cat" None None)))) = [].
Proof. vm_compute. repeat split; reflexivity. Qed.

(** ** The embedding handler: sentinels, totality, length *)

Lemma embedding_reply_cases (w : World) (n : Z) (text : string) :
  (forall e, fetch w (embeddingRequest w text) = Thrown e ->
     embedding_reply w n text = sentinel_vector n (6 # 10)%Q)
  /\ (forall r,
        fetch w (embeddingRequest w text) = Returned r ->
        (forall e, resp_text r = Thrown e ->
           embedding_reply w n text = sentinel_vector n (6 # 10)%Q)
        /\ (forall raw, resp_text r = Returned raw -> ok r = false ->
              embedding_reply w n text = sentinel_vector n (4 # 10)%Q)
        /\ (forall raw e, resp_text r = Returned raw -> ok r = true ->
              resp_json r = Thrown e ->
              embedding_reply w n text = sentinel_vector n (6 # 10)%Q)
        /\ (forall raw data, resp_text r = Returned raw -> ok r = true ->
              resp_json r = Returned data ->
              truthy (payload_embedding data) = false ->
              embedding_reply w n text = sentinel_vector n (5 # 10)%Q)
        /\ (forall raw data, resp_text r = Returned raw -> ok r = true ->
              resp_json r = Returned data ->
              truthy (payload_embedding data) = true ->
              embedding_reply w n text = payload_embedding data)).
Proof.
  unfold embedding_reply. split.
  - intros e ->. reflexivity.
  - intros r ->. repeat split.
    + intros e ->. reflexivity.
    + intros raw -> ->. reflexivity.
    + intros raw e -> -> ->. reflexivity.
    + intros raw data -> -> -> ->. reflexivity.
    + intros raw data -> -> -> ->. reflexivity.
Qed.

(** Claim C9.  When the configured dimension [n] (the number
    [ELIZAOS_EMBEDDING_DIMENSIONS] starts with, 1536 when unset or empty) is
    one of [VECTOR_DIMS], [params = null] yields the vector [0.1, 0, ..., 0]
    of length [n] with no effect at all (whatever the credentials are), and
    every other degenerate path yields the vector of length [n] whose first
    element names the path: 0.2 invalid input, 0.3 blank text, 0.4 HTTP
    error status, 0.5 reply without an embedding, 0.6 exception; all
    remaining elements are 0. *)
Theorem degenerate_paths_return_sentinels (w : World) (n : Z) :
  array_lengths (VECTOR_DIMS w) = true ->
  configured_dimension w = Some n ->
  supported_dimension w = true ->
  TEXT_EMBEDDING_handler w EmbedNull = ([], Returned (sentinel_vector n (1 # 10)%Q))
  /\ TEXT_EMBEDDING_handler w (EmbedObject "") = ([], Returned (sentinel_vector n (2 # 10)%Q))
  /\ (forall p text, input_text p = Some text -> truthy_str (trim text) = false ->
        TEXT_EMBEDDING_handler w p = ([], Returned (sentinel_vector n (3 # 10)%Q)))
  /\ (forall p text r raw,
        input_text p = Some text -> truthy_str (trim text) = true ->
        truthy_opt (getEmbeddingApiKey w) = true ->
        fetch w (embeddingRequest w text) = Returned r ->
        resp_text r = Returned raw -> ok r = false ->
        completion (TEXT_EMBEDDING_handler w p) = Returned (sentinel_vector n (4 # 10)%Q))
  /\ (forall p text r raw data,
        input_text p = Some text -> truthy_str (trim text) = true ->
        truthy_opt (getEmbeddingApiKey w) = true ->
        fetch w (embeddingRequest w text) = Returned r ->
        resp_text r = Returned raw -> ok r = true ->
        resp_json r = Returned data -> truthy (payload_embedding data) = false ->
        completion (TEXT_EMBEDDING_handler w p) = Returned (sentinel_vector n (5 # 10)%Q))
  /\ (forall p text,
        input_text p = Some text -> truthy_str (trim text) = true ->
        truthy_opt (getEmbeddingApiKey w) = true ->
        (exists e, fetch w (embeddingRequest w text) = Thrown e)
        \/ (exists r e, fetch w (embeddingRequest w text) = Returned r
                        /\ resp_text r = Thrown e)
        \/ (exists r raw e, fetch w (embeddingRequest w text) = Returned r
                            /\ resp_text r = Returned raw /\ ok r = true
                            /\ resp_json r = Thrown e) ->
        completion (TEXT_EMBEDDING_handler w p) = Returned (sentinel_vector n (6 # 10)%Q))
  /\ (forall first,
        array_length (sentinel_vector n first) = Some n
        /\ array_at (sentinel_vector n first) 0 = Some (JNum first)
        /\ forall k, (0 < k < Z.to_nat n)%nat ->
             array_at (sentinel_vector n first) k = Some (JNum 0%Q)).
Proof.
  intros Hdims Hconf Hsupported.
  assert (Hdim : embeddingDimension w = Some n)
    by (rewrite embeddingDimension_configured; exact Hconf).
  assert (Hvalid : valid_dimension w = true)
    by (rewrite valid_dimension_supported; exact Hsupported).
  destruct (dimension_in_range w Hdims Hvalid) as (n' & Hdim' & Hn).
  rewrite Hdim in Hdim'. injection Hdim' as <-.
  split; [apply (embedding_null w n); assumption|].
  split; [apply (embedding_invalid_input w n); try assumption; [discriminate|reflexivity]|].
  split; [intros p text Htext Hblank; eapply (embedding_blank_text w n); eassumption|].
  split.
  { intros p text r raw Htext Hblank Hkey Hfetch Hraw Hok.
    rewrite (embedding_network_phase w n Hvalid Hdim Hn p text) by assumption. simpl.
    f_equal. eapply (embedding_reply_cases w n text); eassumption. }
  split.
  { intros p text r raw data Htext Hblank Hkey Hfetch Hraw Hok Hjson Hemb.
    rewrite (embedding_network_phase w n Hvalid Hdim Hn p text) by assumption. simpl.
    f_equal. eapply (embedding_reply_cases w n text); eassumption. }
  split.
  { intros p text Htext Hblank Hkey Hexc.
    rewrite (embedding_network_phase w n Hvalid Hdim Hn p text) by assumption. simpl.
    f_equal.
    destruct Hexc as [[e He]|[(r & e & Hr & He)|(r & raw & e & Hr & Hraw & Hok & He)]].
    - apply (proj1 (embedding_reply_cases w n text) e He).
    - destruct (proj2 (embedding_reply_cases w n text) r Hr) as (H1 & _).
      apply (H1 e He).
    - destruct (proj2 (embedding_reply_cases w n text) r Hr) as (_ & _ & H3 & _).
      apply (H3 raw e Hraw Hok He). }
  intros first. apply sentinel_vector_shape. lia.
Qed.

(** At a configured dimension of 384 the test vector and the 0.4 sentinel
    of a 500 reply have 384 elements. *)
Lemma degenerate_paths_witness :
  let w := host ∅ keyed_384 (respond 500 "Internal Server Error" "boom" (Returned JNull)) in
  array_lengths (VECTOR_DIMS w) = true
  /\ configured_dimension w = Some 384%Z
  /\ supported_dimension w = true
  /\ TEXT_EMBEDDING_handler w EmbedNull = ([], Returned (sentinel_vector 384 (1 # 10)%Q))
  /\ completion (TEXT_EMBEDDING_handler w (EmbedString "hello"))
     = Returned (sentinel_vector 384 (4 # 10)%Q)
  /\ array_length (sentinel_vector 384 (4 # 10)%Q) = Some 384%Z.
Proof.
  intros w.
  assert (H1 : array_lengths (VECTOR_DIMS w) = true) by reflexivity.
  assert (H2 : configured_dimension w = Some 384%Z) by (vm_compute; reflexivity).
  assert (H3 : supported_dimension w = true) by (vm_compute; reflexivity).
  split; [exact H1|]. split; [exact H2|]. split; [exact H3|].
  destruct (degenerate_paths_return_sentinels w 384 H1 H2 H3)
    as (Hnull & _ & _ & Hstatus & _ & _ & Hshape).
  split; [exact Hnull|]. split.
  - apply (Hstatus (EmbedString "hello") "hello"
             (mkResponse 500 "Internal Server Error" (Returned "boom") (Returned JNull)
                         (Some "boom")) "boom"); vm_compute; reflexivity.
  - apply (Hshape (4 # 10)%Q).
Defined.

(** Claim C5.  Once the dimension is valid and an embedding API key is
    resolvable, the embedding handler returns and never throws: an error
    status gives the 0.4 sentinel (0.6 if the body cannot be read), a reply
    without [data[0].embedding] gives the 0.5 sentinel, and an exception of
    the request or of reading the reply gives the 0.6 sentinel. *)
Theorem embedding_degrades_to_sentinel (w : World) (p : TextEmbeddingParams) :
  array_lengths (VECTOR_DIMS w) = true ->
  valid_dimension w = true ->
  truthy_opt (getEmbeddingApiKey w) = true ->
  (exists v, completion (TEXT_EMBEDDING_handler w p) = Returned v)
  /\ forall n text,
       embeddingDimension w = Some n ->
       input_text p = Some text -> truthy_str (trim text) = true ->
       (forall r, fetch w (embeddingRequest w text) = Returned r -> ok r = false ->
          completion (TEXT_EMBEDDING_handler w p) =
            Returned (sentinel_vector n
                        match resp_text r with
                        | Returned _ => (4 # 10)%Q
                        | Thrown _ => (6 # 10)%Q
                        end))
       /\ (forall r raw data,
             fetch w (embeddingRequest w text) = Returned r ->
             resp_text r = Returned raw -> ok r = true ->
             resp_json r = Returned data -> truthy (payload_embedding data) = false ->
             completion (TEXT_EMBEDDING_handler w p) = Returned (sentinel_vector n (5 # 10)%Q))
       /\ (forall e, fetch w (embeddingRequest w text) = Thrown e ->
             completion (TEXT_EMBEDDING_handler w p) = Returned (sentinel_vector n (6 # 10)%Q))
       /\ (forall r raw e,
             fetch w (embeddingRequest w text) = Returned r ->
             resp_text r = Returned raw -> ok r = true -> resp_json r = Thrown e ->
             completion (TEXT_EMBEDDING_handler w p) = Returned (sentinel_vector n (6 # 10)%Q)).
Proof.
  intros Hdims Hvalid Hkey.
  destruct (dimension_in_range w Hdims Hvalid) as (n & Hdim & Hn).
  split.
  - destruct (input_text p) as [text|] eqn:Htext.
    + destruct (truthy_str (trim text)) eqn:Hblank.
      * rewrite (embedding_network_phase w n Hvalid Hdim Hn p text) by assumption.
        simpl. eauto.
      * rewrite (embedding_blank_text w n Hvalid Hdim Hn p text) by assumption. simpl. eauto.
    + destruct p as [|s|t].
      * rewrite (embedding_null w n Hvalid Hdim Hn). simpl. eauto.
      * discriminate.
      * rewrite (embedding_invalid_input w n Hvalid Hdim Hn (EmbedObject t)) by (assumption || discriminate).
        simpl. eauto.
  - intros n' text Hdim' Htext Hblank.
    rewrite Hdim in Hdim'. injection Hdim' as <-.
    rewrite (embedding_network_phase w n Hvalid Hdim Hn p text) by assumption. simpl.
    destruct (embedding_reply_cases w n text) as [Hthrown Hresp].
    repeat split.
    + intros r Hr Hok. f_equal.
      destruct (Hresp r Hr) as (H1 & H2 & _).
      destruct (resp_text r) as [raw|e] eqn:Hraw.
      * apply (H2 raw eq_refl Hok).
      * apply (H1 e eq_refl).
    + intros r raw data Hr Hraw Hok Hjson Hemb. f_equal.
      destruct (Hresp r Hr) as (_ & _ & _ & H4 & _).
      apply (H4 raw data Hraw Hok Hjson Hemb).
    + intros e He. f_equal. apply (Hthrown e He).
    + intros r raw e Hr Hraw Hok Hjson. f_equal.
      destruct (Hresp r Hr) as (_ & _ & H3 & _).
      apply (H3 raw e Hraw Hok Hjson).
Qed.

Lemma embedding_degrades_witness :
  let w := upstream 503 "Service Unavailable" "busy" (Returned JNull) in
  array_lengths (VECTOR_DIMS w) = true
  /\ valid_dimension w = true
  /\ truthy_opt (getEmbeddingApiKey w) = true
  /\ exists v, completion (TEXT_EMBEDDING_handler w (EmbedString "hello")) = Returned v.
Proof.
  intros w.
  assert (H1 : array_lengths (VECTOR_DIMS w) = true) by reflexivity.
  assert (H2 : valid_dimension w = true) by (vm_compute; reflexivity).
  assert (H3 : truthy_opt (getEmbeddingApiKey w) = true) by (vm_compute; reflexivity).
  split; [exact H1|]. split; [exact H2|]. split; [exact H3|].
  exact (proj1 (embedding_degrades_to_sentinel w (EmbedString "hello") H1 H2 H3)).
Defined.




(** ** Missing credentials *)

Lemma getSetting_precedence (w : World) (key : string) (defaultValue : option string) :
  getSetting w key defaultValue =
    match settings w !! key with
    | Some v => Some v
    | None =>
        match env w !! key with
        | Some v => Some v
        | None => defaultValue
        end
    end.
Proof.
  unfold getSetting, nullish_or.
  destruct (settings w !! key); [reflexivity|].
  destruct (env w !! key); reflexivity.
Qed.

Lemma image_missing_key (w : World) (p : ImageParams) :
  truthy_opt (getApiKey w) = false ->
  IMAGE_handler w p = ([], Thrown (Error "ElizaOS API key not configured")).
Proof. unfold IMAGE_handler. intros ->. reflexivity. Qed.

Lemma transcription_missing_key (w : World) (audioBuffer : option (list Byte.byte)) :
  truthy_opt (getApiKey w) = false ->
  TRANSCRIPTION_handler w audioBuffer =
    ([], Thrown (Error "ElizaOS API key not configured - Cannot make request")).
Proof. unfold TRANSCRIPTION_handler. intros ->. reflexivity. Qed.

Lemma unresolvable_absent (w : World) (key : string) :
  settings w !! key = None -> env w !! key = None -> unresolvable w key.
Proof.
  intros Hrt Henv. unfold unresolvable. rewrite getSetting_precedence, Hrt, Henv.
  reflexivity.
Qed.

Lemma embedding_key_unresolvable (w : World) :
  unresolvable w "ELIZAOS_API_KEY" ->
  unresolvable w "ELIZAOS_EMBEDDING_API_KEY" ->
  truthy_opt (getEmbeddingApiKey w) = false.
Proof.
  unfold unresolvable, getEmbeddingApiKey, getApiKey. intros Hkey Hemb.
  rewrite Hemb. exact Hkey.
Qed.

Lemma text_small_completion (w : World) (p : GenerateTextParams) :
  completion (TEXT_SMALL_handler w p)
  = match generateText w (textCall w (getSmallModel w) p) with
    | Returned res => Returned (gt_text res)
    | Thrown e => Thrown e
    end.
Proof.
  unfold TEXT_SMALL_handler, perform, bind, completion.
  destruct (generateText w (textCall w (getSmallModel w) p)) as [res|e]; [|reflexivity].
  destruct (gt_usage res); reflexivity.
Qed.

Lemma text_large_completion (w : World) (p : GenerateTextParams) :
  completion (TEXT_LARGE_handler w p)
  = match generateText w (textCall w (getLargeModel w) p) with
    | Returned res => Returned (gt_text res)
    | Thrown e => Thrown e
    end.
Proof.
  unfold TEXT_LARGE_handler, perform, bind, completion.
  destruct (generateText w (textCall w (getLargeModel w) p)) as [res|e]; [|reflexivity].
  destruct (gt_usage res); reflexivity.
Qed.

Lemma object_success (w : World) (p : ObjectGenerationParams) (type : ModelType)
    (getModelFn : World -> string) (res : GenerateObjectResult) :
  generateObject w (objectCall w p getModelFn) = Returned res ->
  completion (generateObjectByModelType w p type getModelFn) = Returned (go_object res).
Proof.
  unfold generateObjectByModelType, perform, bind, try_catch, completion.
  intros ->. destruct (go_usage res); reflexivity.
Qed.

Lemma embedding_dimension_error (w : World) (p : TextEmbeddingParams) :
  supported_dimension w = false ->
  TEXT_EMBEDDING_handler w p
  = ([], Thrown (Error ("Invalid embedding dimension: "
                        +:+ show_int (configured_dimension w)
                        +:+ ". Must be one of: " +:+ join_ints (VECTOR_DIMS w)))).
Proof.
  rewrite <- valid_dimension_supported, <- embeddingDimension_configured.
  unfold valid_dimension, TEXT_EMBEDDING_handler. intros ->. reflexivity.
Qed.

(** Claim C1 as stated fails, in three ways.  Without any API key the
    speech handler still issues its request, with the header
    [Bearer undefined]; the image-description handler returns a placeholder
    instead of throwing; and a text handler raises no missing-credential
    error of its own: it makes its [generateText] call with a client whose
    key is [undefined], and where the [ai] package answers that call the
    handler returns the text. *)
Lemma handlers_without_key_check :
  let p := mkGenerateTextParams "hello" None None None None None in
  let answering := sdk_host ∅ ∅ (Returned (mkGenerateTextResult "hi" None)) in
  unresolvable offline "ELIZAOS_API_KEY"
  /\ requests (trace (models offline (CallTextToSpeech "hello")))
     = [mkRequest "http://localhost:3001/api/v1/audio/speech" "POST"
          [("Authorization", "Bearer undefined");
           ("Content-Type", "application/json")]
          (JsonBody (JObj [("model", JStr "gpt-4o-mini-tts");
                           ("voice", JStr "nova");
                           ("input", JStr "hello")]))]
  /\ models offline (CallImageDescription (DescribeUrl "https://img.example/cat.png"))
     = ([], Returned (ResDescription
                        (TitleDescription "Failed to analyze image"
                                          "API key not configured")))
  /\ outbound (trace (models offline (CallTextSmall p)))
     = [EvGenerateText (textCall offline "gpt-4o" p)]
  /\ client_apiKey (gt_client (textCall offline "gpt-4o" p)) = None
  /\ unresolvable answering "ELIZAOS_API_KEY"
  /\ completion (models answering (CallTextSmall p)) = Returned (ResText "hi").
Proof. vm_compute. repeat split; reflexivity. Qed.

(** Claim C1 as the code has it.  When no API key is configured
    ([ELIZAOS_API_KEY] unset or empty), the image and transcription handlers
    throw a missing-credential error and the image-description handler
    returns the placeholder "Failed to analyze image" / "API key not
    configured"; none of them issues a request.  The embedding handler (no
    [ELIZAOS_EMBEDDING_API_KEY] either) issues no request for any input:
    with a configured dimension outside [VECTOR_DIMS] it throws the
    invalid-dimension error; with a supported one it throws the
    missing-credential error for every non-blank text, while its null,
    invalid and blank inputs return the 0.1, 0.2 and 0.3 vectors of the
    configured dimension.  The text and object handlers have no check of
    their own: each makes its one call into the [ai] package, with a client
    whose key is the unset or empty one; the text handlers complete as that
    call does, the object handlers return the object of a successful
    call. *)
Theorem missing_key_stops_before_network (w : World) :
  unresolvable w "ELIZAOS_API_KEY" ->
  (forall p, IMAGE_handler w p = ([], Thrown (Error "ElizaOS API key not configured")))
  /\ (forall audioBuffer,
        TRANSCRIPTION_handler w audioBuffer =
          ([], Thrown (Error "ElizaOS API key not configured - Cannot make request")))
  /\ (forall p,
        IMAGE_DESCRIPTION_handler w p =
          ([], Returned (TitleDescription "Failed to analyze image"
                                          "API key not configured")))
  /\ (unresolvable w "ELIZAOS_EMBEDDING_API_KEY" ->
      forall p,
        trace (TEXT_EMBEDDING_handler w p) = []
        /\ (supported_dimension w = false ->
            completion (TEXT_EMBEDDING_handler w p)
            = Thrown (Error ("Invalid embedding dimension: "
                             +:+ show_int (configured_dimension w)
                             +:+ ". Must be one of: " +:+ join_ints (VECTOR_DIMS w))))
        /\ (supported_dimension w = true ->
            forall text,
              input_text p = Some text -> truthy_str (trim text) = true ->
              completion (TEXT_EMBEDDING_handler w p)
              = Thrown (Error "ElizaOS API key not configured"))
        /\ (supported_dimension w = true -> array_lengths (VECTOR_DIMS w) = true ->
            forall n,
              configured_dimension w = Some n ->
              (p = EmbedNull ->
               completion (TEXT_EMBEDDING_handler w p)
               = Returned (sentinel_vector n (1 # 10)%Q))
              /\ (p <> EmbedNull -> input_text p = None ->
                  completion (TEXT_EMBEDDING_handler w p)
                  = Returned (sentinel_vector n (2 # 10)%Q))
              /\ (forall text,
                    input_text p = Some text -> truthy_str (trim text) = false ->
                    completion (TEXT_EMBEDDING_handler w p)
                    = Returned (sentinel_vector n (3 # 10)%Q))))
  /\ truthy_opt (configured w "ELIZAOS_API_KEY") = false
  /\ (forall p,
        outbound (trace (TEXT_SMALL_handler w p))
        = [EvGenerateText (textCall w (getSmallModel w) p)]
        /\ outbound (trace (TEXT_LARGE_handler w p))
           = [EvGenerateText (textCall w (getLargeModel w) p)]
        /\ (forall modelName,
              client_apiKey (gt_client (textCall w modelName p))
              = configured w "ELIZAOS_API_KEY")
        /\ completion (TEXT_SMALL_handler w p)
           = match generateText w (textCall w (getSmallModel w) p) with
             | Returned res => Returned (gt_text res)
             | Thrown e => Thrown e
             end
        /\ completion (TEXT_LARGE_handler w p)
           = match generateText w (textCall w (getLargeModel w) p) with
             | Returned res => Returned (gt_text res)
             | Thrown e => Thrown e
             end)
  /\ (forall p,
        outbound (trace (OBJECT_SMALL_handler w p))
        = [EvGenerateObject (objectCall w p getSmallModel)]
        /\ outbound (trace (OBJECT_LARGE_handler w p))
           = [EvGenerateObject (objectCall w p getLargeModel)]
        /\ (forall getModelFn,
              client_apiKey (go_client (objectCall w p getModelFn))
              = configured w "ELIZAOS_API_KEY")
        /\ (forall res,
              generateObject w (objectCall w p getSmallModel) = Returned res ->
              completion (OBJECT_SMALL_handler w p) = Returned (go_object res))
        /\ (forall res,
              generateObject w (objectCall w p getLargeModel) = Returned res ->
              completion (OBJECT_LARGE_handler w p) = Returned (go_object res))).
Proof.
  intros Hkey.
  assert (Hkey' : truthy_opt (getApiKey w) = false) by exact Hkey.
  split; [intros p; apply image_missing_key, Hkey'|].
  split; [intros b; apply transcription_missing_key, Hkey'|].
  split; [intros p; apply description_missing_key, Hkey'|].
  split.
  { intros Hemb p.
    pose proof (embedding_key_unresolvable w Hkey Hemb) as Hnone.
    split.
    { rewrite embedding_trace. unfold reaches_network. rewrite Hnone.
      destruct (input_text p); [|reflexivity].
      rewrite andb_false_r. reflexivity. }
    split.
    { intros Hbad. rewrite (embedding_dimension_error w p Hbad). reflexivity. }
    split.
    { intros Hgood text Htext Hblank.
      rewrite <- valid_dimension_supported in Hgood.
      rewrite (embedding_missing_key w p text) by assumption. reflexivity. }
    intros Hgood Hdims n Hconf.
    rewrite <- valid_dimension_supported in Hgood.
    rewrite <- embeddingDimension_configured in Hconf.
    destruct (dimension_in_range w Hdims Hgood) as (n' & Hdim' & Hn).
    rewrite Hconf in Hdim'. injection Hdim' as <-.
    split; [intros ->; rewrite (embedding_null w n) by assumption; reflexivity|].
    split.
    - intros Hp Htext.
      rewrite (embedding_invalid_input w n) by assumption. reflexivity.
    - intros text Htext Hblank.
      rewrite (embedding_blank_text w n Hgood Hconf Hn p text) by assumption.
      reflexivity. }
  split; [apply unresolvable_configured, Hkey|].
  split.
  { intros p.
    split; [rewrite text_small_trace; apply outbound_cons_usage; reflexivity|].
    split; [rewrite text_large_trace; apply outbound_cons_usage; reflexivity|].
    split; [intros modelName; apply getApiKey_configured|].
    split; [apply text_small_completion|apply text_large_completion]. }
  intros p.
  split; [unfold OBJECT_SMALL_handler; rewrite object_trace;
          apply outbound_cons_usage; reflexivity|].
  split; [unfold OBJECT_LARGE_handler; rewrite object_trace;
          apply outbound_cons_usage; reflexivity|].
  split; [intros getModelFn; apply getApiKey_configured|].
  split; intros res Hres; apply object_success, Hres.
Qed.

(** Without any key and at a configured dimension of 384: the image
    handler throws, the embedding handler throws for a text and returns
    the 384-element test vector for [null]. *)
Lemma missing_key_witness :
  let w := host ∅ dimension_384 no_network in
  unresolvable w "ELIZAOS_API_KEY"
  /\ IMAGE_handler w (mkImageParams "a cat" None None)
     = ([], Thrown (Error "ElizaOS API key not configured"))
  /\ completion (TEXT_EMBEDDING_handler w (EmbedString "hello"))
     = Thrown (Error "ElizaOS API key not configured")
  /\ completion (TEXT_EMBEDDING_handler w EmbedNull)
     = Returned (sentinel_vector 384 (1 # 10)%Q).
Proof.
  intros w.
  assert (H : unresolvable w "ELIZAOS_API_KEY") by (vm_compute; reflexivity).
  assert (Hemb : unresolvable w "ELIZAOS_EMBEDDING_API_KEY") by (vm_compute; reflexivity).
  assert (Hgood : supported_dimension w = true) by (vm_compute; reflexivity).
  split; [exact H|].
  destruct (missing_key_stops_before_network w H) as (Himage & _ & _ & Hembedding & _).
  split; [apply Himage|]. split.
  - destruct (Hembedding Hemb (EmbedString "hello")) as (_ & _ & Htext & _).
    apply (Htext Hgood "hello"); reflexivity.
  - destruct (Hembedding Hemb EmbedNull) as (_ & _ & _ & Hnull).
    apply (Hnull Hgood eq_refl 384%Z); [vm_compute; reflexivity|reflexivity].
Defined.

(** ** Error statuses *)

Lemma image_error_status (w : World) (p : ImageParams) (r : Response) (raw : string) :
  truthy_opt (getApiKey w) = true ->
  fetch w (imageRequest w p) = Returned r -> resp_text r = Returned raw -> ok r = false ->
  completion (IMAGE_handler w p) =
    Thrown (Error ("Failed to generate image: " +:+ statusText r)).
Proof.
  unfold IMAGE_handler. intros -> Hr Hraw Hok. simpl.
  unfold perform, try_catch, bind, lift, throw. rewrite Hr. simpl.
  rewrite Hraw. simpl. rewrite Hok. reflexivity.
Qed.

Lemma transcription_error_status (w : World) (b : Byte.byte) (bytes : list Byte.byte)
    (r : Response) (raw : string) :
  truthy_opt (getApiKey w) = true ->
  fetch w (transcriptionRequest w (b :: bytes)) = Returned r ->
  resp_text r = Returned raw -> ok r = false ->
  completion (TRANSCRIPTION_handler w (Some (b :: bytes))) =
    Thrown (Error ("Failed to transcribe audio: " +:+ statusText r)).
Proof.
  unfold TRANSCRIPTION_handler. intros -> Hr Hraw Hok. simpl.
  unfold perform, try_catch, bind, lift, throw. rewrite Hr. simpl.
  rewrite Hraw. simpl. rewrite Hok. reflexivity.
Qed.

Lemma speech_error_status (w : World) (text : string) (r : Response) (raw : string) :
  fetch w (speechRequest w text) = Returned r -> resp_text r = Returned raw -> ok r = false ->
  completion (TEXT_TO_SPEECH_handler w text) =
    Thrown (Error ("Failed to fetch speech from ElizaOS TTS: ElizaOS TTS error "
                   +:+ pretty (status r) +:+ ": " +:+ raw)).
Proof.
  unfold TEXT_TO_SPEECH_handler, fetchTextToSpeech. intros Hr Hraw Hok.
  unfold perform, try_catch, bind, lift, throw. rewrite Hr. simpl.
  rewrite Hok. simpl. rewrite Hraw. reflexivity.
Qed.

Lemma description_error_status (w : World) (p : ImageDescriptionParams) (r : Response)
    (raw : string) :
  truthy_opt (getApiKey w) = true ->
  fetch w (imageDescriptionRequest w p) = Returned r ->
  resp_text r = Returned raw -> ok r = false ->
  completion (IMAGE_DESCRIPTION_handler w p) =
    Returned (failure ("Error: ElizaOS API error: " +:+ pretty (status r))).
Proof.
  intros Hkey Hr Hraw Hok. rewrite (description_network_phase w p Hkey).
  unfold description_reply. rewrite Hr, Hraw, Hok. reflexivity.
Qed.

Lemma text_small_sdk_error (w : World) (p : GenerateTextParams) (e : JsError) :
  generateText w (textCall w (getSmallModel w) p) = Thrown e ->
  completion (TEXT_SMALL_handler w p) = Thrown e.
Proof.
  unfold TEXT_SMALL_handler, perform, bind. intros ->. reflexivity.
Qed.

Lemma text_large_sdk_error (w : World) (p : GenerateTextParams) (e : JsError) :
  generateText w (textCall w (getLargeModel w) p) = Thrown e ->
  completion (TEXT_LARGE_handler w p) = Thrown e.
Proof.
  unfold TEXT_LARGE_handler, perform, bind. intros ->. reflexivity.
Qed.

Lemma object_sdk_error (w : World) (p : ObjectGenerationParams) (type : ModelType)
    (getModelFn : World -> string) (e : JsError) :
  generateObject w (objectCall w p getModelFn) = Thrown e ->
  (forall text, err_class e <> JSONParseError text) ->
  completion (generateObjectByModelType w p type getModelFn) = Thrown e.
Proof.
  unfold generateObjectByModelType, perform, bind, try_catch, throw.
  intros -> Hclass. simpl.
  destruct (err_class e) as [| | |text] eqn:He; try reflexivity.
  exfalso. exact (Hclass text eq_refl).
Qed.

(** Claim C6 as stated fails: on a 500 reply the image-description handler
    returns a placeholder object and throws nothing. *)
Lemma description_error_is_returned :
  completion (models (upstream 500 "Internal Server Error" "boom" (Returned JNull))
                     (CallImageDescription (DescribeUrl "https://img.example/cat.png")))
  = Returned (ResDescription
                (TitleDescription "Failed to analyze image"
                                  "Error: ElizaOS API error: 500")).
Proof. vm_compute. reflexivity. Qed.

(** Claim C6 as the code has it.  On a reply with an error status (and a
    readable body) the image and transcription handlers throw an error that
    carries the status text, the speech handler throws one that carries the
    status code and the body, and the image-description handler returns the
    placeholder whose description carries the status code; the text and
    object handlers pass on whatever error the [ai] package throws (for
    objects: any error that is not a JSON parse error). *)
Theorem error_status_is_surfaced (w : World) (r : Response) (raw : string) :
  truthy_opt (getApiKey w) = true ->
  (forall req, fetch w req = Returned r) ->
  resp_text r = Returned raw ->
  ok r = false ->
  (forall p,
     completion (IMAGE_handler w p) =
       Thrown (Error ("Failed to generate image: " +:+ statusText r)))
  /\ (forall b bytes,
        completion (TRANSCRIPTION_handler w (Some (b :: bytes))) =
          Thrown (Error ("Failed to transcribe audio: " +:+ statusText r)))
  /\ (forall text,
        completion (TEXT_TO_SPEECH_handler w text) =
          Thrown (Error ("Failed to fetch speech from ElizaOS TTS: ElizaOS TTS error "
                         +:+ pretty (status r) +:+ ": " +:+ raw)))
  /\ (forall p,
        completion (IMAGE_DESCRIPTION_handler w p) =
          Returned (TitleDescription "Failed to analyze image"
                      ("Error: ElizaOS API error: " +:+ pretty (status r))))
  /\ (forall p e,
        generateText w (textCall w (getSmallModel w) p) = Thrown e ->
        completion (TEXT_SMALL_handler w p) = Thrown e)
  /\ (forall p e,
        generateText w (textCall w (getLargeModel w) p) = Thrown e ->
        completion (TEXT_LARGE_handler w p) = Thrown e)
  /\ (forall p e,
        generateObject w (objectCall w p getSmallModel) = Thrown e ->
        (forall text, err_class e <> JSONParseError text) ->
        completion (OBJECT_SMALL_handler w p) = Thrown e)
  /\ (forall p e,
        generateObject w (objectCall w p getLargeModel) = Thrown e ->
        (forall text, err_class e <> JSONParseError text) ->
        completion (OBJECT_LARGE_handler w p) = Thrown e).
Proof.
  intros Hkey Hfetch Hraw Hok.
  split; [intros p; eapply image_error_status; eauto|].
  split; [intros b bytes; eapply transcription_error_status; eauto|].
  split; [intros text; eapply speech_error_status; eauto|].
  split; [intros p; eapply description_error_status; eauto|].
  split; [intros p e; apply text_small_sdk_error|].
  split; [intros p e; apply text_large_sdk_error|].
  split; intros p e; apply object_sdk_error.
Qed.

Lemma error_status_witness :
  let r := mkResponse 429 "Too Many Requests" (Returned "slow down") (Returned JNull)
             (Some "slow down") in
  let w := upstream 429 "Too Many Requests" "slow down" (Returned JNull) in
  truthy_opt (getApiKey w) = true
  /\ (forall req, fetch w req = Returned r)
  /\ resp_text r = Returned "slow down"
  /\ ok r = false
  /\ completion (IMAGE_handler w (mkImageParams "a cat" None None))
     = Thrown (Error ("Failed to generate image: " +:+ statusText r)).
Proof.
  intros r w.
  assert (H1 : truthy_opt (getApiKey w) = true) by (vm_compute; reflexivity).
  assert (H2 : forall req, fetch w req = Returned r) by (intros req; reflexivity).
  assert (H3 : resp_text r = Returned "slow down") by reflexivity.
  assert (H4 : ok r = false) by reflexivity.
  split; [exact H1|]. split; [exact H2|]. split; [exact H3|]. split; [exact H4|].
  exact (proj1 (error_status_is_surfaced w r "slow down" H1 H2 H3 H4)
           (mkImageParams "a cat" None None)).
Defined.

(** ** Settings precedence and the tokenizer *)

Lemma tokenizeText_resolution (w : World) (model : ModelType) (prompt : string) :
  tokenizeText w model prompt =
    match encodingForModel w (tokenizer_model_name w model) with
    | Returned encoding => encode encoding prompt
    | Thrown e => Thrown e
    end.
Proof. reflexivity. Qed.

Lemma detokenizeText_resolution (w : World) (model : ModelType) (tokens : list N) :
  detokenizeText w model tokens =
    match encodingForModel w (tokenizer_model_name w model) with
    | Returned encoding => Returned (decode encoding tokens)
    | Thrown e => Thrown e
    end.
Proof. reflexivity. Qed.

(** Claim C2 at its failing input.  With the runtime setting
    [ELIZAOS_SMALL_MODEL = "gpt-3.5-turbo"] and an empty environment, the
    lookup and the small-model handlers resolve "gpt-3.5-turbo", while the
    tokenizer of the same family asks for "gpt-4o" and encodes with that
    vocabulary. *)
Theorem tokenizer_ignores_runtime_setting :
  let w := tokenizer_host {["ELIZAOS_SMALL_MODEL" := "gpt-3.5-turbo"]} ∅ in
  getSetting w "ELIZAOS_SMALL_MODEL" (Some "gpt-4o") = Some "gpt-3.5-turbo"
  /\ getSmallModel w = "gpt-3.5-turbo"
  /\ tokenizer_model_name w TEXT_SMALL = "gpt-4o"
  /\ completion (TEXT_TOKENIZER_ENCODE_handler w (mkTokenizeTextParams "a" (Some TEXT_SMALL)))
     = Returned [97%N]
  /\ encodingForModel w "gpt-3.5-turbo" = Returned (shifted 2000)
  /\ encode (shifted 2000) "a" = Returned [2097%N].
Proof. vm_compute. repeat split; reflexivity. Qed.




(** ** The title pattern *)












(** ** Image description: the shape of a successful result *)





(** * Further properties of the code *)

(** ** Settings helpers *)

Lemma getSetting_first_resolved (w : World) (key : string) (d : option string) :
  getSetting w key d =
    match first_resolved [settings w !! key; env w !! key] with
    | Some v => Some v
    | None => d
    end.
Proof.
  rewrite getSetting_precedence. simpl.
  destruct (settings w !! key); [reflexivity|].
  destruct (env w !! key); reflexivity.
Qed.

(** Property X1.  An empty-string runtime setting for [ELIZAOS_API_KEY]
    wins over whatever the environment holds ([??] keeps it) and then counts
    as a missing key: image generation and transcription throw the
    missing-credential error, image description returns its placeholder, and
    no request is made. *)
Theorem empty_runtime_key_shadows_environment (w : World) :
  settings w !! "ELIZAOS_API_KEY" = Some "" ->
  getApiKey w = Some ""
  /\ (forall p, IMAGE_handler w p = ([], Thrown (Error "ElizaOS API key not configured")))
  /\ (forall audioBuffer,
        TRANSCRIPTION_handler w audioBuffer =
          ([], Thrown (Error "ElizaOS API key not configured - Cannot make request")))
  /\ (forall p,
        IMAGE_DESCRIPTION_handler w p =
          ([], Returned (TitleDescription "Failed to analyze image"
                                          "API key not configured"))).
Proof.
  intros Hrt.
  assert (Hkey : getApiKey w = Some "").
  { unfold getApiKey. rewrite getSetting_precedence, Hrt. reflexivity. }
  assert (Hfalsy : truthy_opt (getApiKey w) = false) by (rewrite Hkey; reflexivity).
  split; [exact Hkey|].
  split; [intros p; apply image_missing_key, Hfalsy|].
  split; [intros b; apply transcription_missing_key, Hfalsy|].
  intros p. apply description_missing_key, Hfalsy.
Qed.

Lemma empty_runtime_key_witness :
  let w := host {["ELIZAOS_API_KEY" := ""]} {["ELIZAOS_API_KEY" := "sk-live"]}
             (respond 200 "OK" "" (Returned JNull)) in
  settings w !! "ELIZAOS_API_KEY" = Some ""
  /\ env w !! "ELIZAOS_API_KEY" = Some "sk-live"
  /\ IMAGE_handler w (mkImageParams "a cat" None None)
     = ([], Thrown (Error "ElizaOS API key not configured")).
Proof.
  intros w.
  assert (H : settings w !! "ELIZAOS_API_KEY" = Some "") by (vm_compute; reflexivity).
  split; [exact H|]. split; [vm_compute; reflexivity|].
  exact (proj1 (proj2 (empty_runtime_key_shadows_environment w H))
           (mkImageParams "a cat" None None)).
Defined.

Lemma embedding_key_override (w : World) (k : string) :
  getSetting w "ELIZAOS_EMBEDDING_API_KEY" None = Some k -> k <> "" ->
  getEmbeddingApiKey w = Some k.
Proof.
  intros Hk Hne. unfold getEmbeddingApiKey. rewrite Hk.
  destruct k; [contradiction|reflexivity].
Qed.

Lemma embedding_key_fallback (w : World) :
  unresolvable w "ELIZAOS_EMBEDDING_API_KEY" -> getEmbeddingApiKey w = getApiKey w.
Proof. unfold unresolvable, getEmbeddingApiKey. intros ->. reflexivity. Qed.

(** Property X2.  The embedding overrides fall back to the general
    settings: without a usable [ELIZAOS_EMBEDDING_API_KEY] the embedding
    request carries the general key, without a usable
    [ELIZAOS_EMBEDDING_URL] it goes to the general base URL; a non-empty
    override replaces the key, respectively the base URL, and an
    embedding-only key is enough for the handler to issue its request. *)
Theorem embedding_overrides_fall_back (w : World) (text : string) :
  (unresolvable w "ELIZAOS_EMBEDDING_API_KEY" ->
     header (embeddingRequest w text) "Authorization"
     = Some ("Bearer " +:+ interpolate (getApiKey w)))
  /\ (forall k, getSetting w "ELIZAOS_EMBEDDING_API_KEY" None = Some k -> k <> "" ->
        header (embeddingRequest w text) "Authorization" = Some ("Bearer " +:+ k)
        /\ (valid_dimension w = true -> truthy_str (trim text) = true ->
            requests (trace (TEXT_EMBEDDING_handler w (EmbedString text)))
            = [embeddingRequest w text]))
  /\ (unresolvable w "ELIZAOS_EMBEDDING_URL" ->
        url (embeddingRequest w text) = getBaseURL w +:+ "/embeddings")
  /\ (forall u, getSetting w "ELIZAOS_EMBEDDING_URL" None = Some u -> u <> "" ->
        url (embeddingRequest w text) = u +:+ "/embeddings").
Proof.
  split; [|split; [|split]].
  - intros Hnone. unfold header, embeddingRequest. simpl.
    rewrite (embedding_key_fallback w Hnone). reflexivity.
  - intros k Hk Hne. pose proof (embedding_key_override w k Hk Hne) as Hkey. split.
    + unfold header, embeddingRequest. simpl. rewrite Hkey. reflexivity.
    + intros Hvalid Hblank.
      rewrite embedding_string_trace; try assumption.
      * simpl. rewrite requests_usage_events. reflexivity.
      * rewrite Hkey. destruct k; [contradiction|reflexivity].
  - unfold unresolvable, embeddingRequest, getEmbeddingBaseURL. simpl. intros Hnone.
    destruct (getSetting w "ELIZAOS_EMBEDDING_URL" None) as [u|]; [|reflexivity].
    simpl in Hnone. rewrite Hnone. reflexivity.
  - intros u Hu Hne. unfold embeddingRequest, getEmbeddingBaseURL. simpl. rewrite Hu.
    destruct u; [contradiction|reflexivity].
Qed.

(** Property X3.  The model name of a family is the first of four lookups
    that is not nullish -- the [ELIZAOS_]-prefixed key in the runtime, then
    in the environment, then the unprefixed key in the runtime, then in the
    environment -- and the built-in name otherwise; this is the name the
    text handlers hand to [generateText]. *)
Theorem model_name_chain (w : World) (p : GenerateTextParams) :
  getSmallModel w =
    default "gpt-4o"
      (first_resolved [settings w !! "ELIZAOS_SMALL_MODEL"; env w !! "ELIZAOS_SMALL_MODEL";
                       settings w !! "SMALL_MODEL"; env w !! "SMALL_MODEL"])
  /\ getLargeModel w =
       default "gpt-5-mini"
         (first_resolved [settings w !! "ELIZAOS_LARGE_MODEL"; env w !! "ELIZAOS_LARGE_MODEL";
                          settings w !! "LARGE_MODEL"; env w !! "LARGE_MODEL"])
  /\ (exists call rest,
        trace (TEXT_SMALL_handler w p) = EvGenerateText call :: rest
        /\ gt_model call = getSmallModel w)
  /\ (exists call rest,
        trace (TEXT_LARGE_handler w p) = EvGenerateText call :: rest
        /\ gt_model call = getLargeModel w).
Proof.
  split; [|split; [|split]].
  - unfold getSmallModel. rewrite !getSetting_precedence. simpl.
    destruct (settings w !! "ELIZAOS_SMALL_MODEL"); [reflexivity|].
    destruct (env w !! "ELIZAOS_SMALL_MODEL"); [reflexivity|].
    destruct (settings w !! "SMALL_MODEL"); [reflexivity|].
    destruct (env w !! "SMALL_MODEL"); reflexivity.
  - unfold getLargeModel. rewrite !getSetting_precedence. simpl.
    destruct (settings w !! "ELIZAOS_LARGE_MODEL"); [reflexivity|].
    destruct (env w !! "ELIZAOS_LARGE_MODEL"); [reflexivity|].
    destruct (settings w !! "LARGE_MODEL"); [reflexivity|].
    destruct (env w !! "LARGE_MODEL"); reflexivity.
  - rewrite text_small_trace. eexists _, _. split; reflexivity.
  - rewrite text_large_trace. eexists _, _. split; reflexivity.
Qed.

Lemma lower_is_t (c : ascii) : Ascii.eqb (lower_char c) "t" = letter "t" "T" c.
Proof. destruct c as [[] [] [] [] [] [] [] []]; reflexivity. Qed.

Lemma lower_is_r (c : ascii) : Ascii.eqb (lower_char c) "r" = letter "r" "R" c.
Proof. destruct c as [[] [] [] [] [] [] [] []]; reflexivity. Qed.

Lemma lower_is_u (c : ascii) : Ascii.eqb (lower_char c) "u" = letter "u" "U" c.
Proof. destruct c as [[] [] [] [] [] [] [] []]; reflexivity. Qed.

Lemma lower_is_e (c : ascii) : Ascii.eqb (lower_char c) "e" = letter "e" "E" c.
Proof. destruct c as [[] [] [] [] [] [] [] []]; reflexivity. Qed.

Lemma lowercase_true (s : string) :
  String.eqb (toLowerCase s) "true" = spells_true s.
Proof.
  destruct s as [|a [|b [|c [|d [|e s]]]]]; try reflexivity.
  - simpl. destruct (Ascii.eqb (lower_char a) "t"); reflexivity.
  - simpl. destruct (Ascii.eqb (lower_char a) "t"); [|reflexivity].
    destruct (Ascii.eqb (lower_char b) "r"); reflexivity.
  - simpl. destruct (Ascii.eqb (lower_char a) "t"); [|reflexivity].
    destruct (Ascii.eqb (lower_char b) "r"); [|reflexivity].
    destruct (Ascii.eqb (lower_char c) "u"); reflexivity.
  - cbn [toLowerCase String.eqb spells_true].
    rewrite lower_is_t, lower_is_r, lower_is_u, lower_is_e.
    destruct (letter "t" "T" a), (letter "r" "R" b), (letter "u" "U" c),
      (letter "e" "E" d); reflexivity.
  - cbn [toLowerCase String.eqb spells_true].
    destruct (Ascii.eqb (lower_char a) "t"); [|reflexivity].
    destruct (Ascii.eqb (lower_char b) "r"); [|reflexivity].
    destruct (Ascii.eqb (lower_char c) "u"); [|reflexivity].
    destruct (Ascii.eqb (lower_char d) "e"); reflexivity.
Qed.

(** Property X4.  Experimental telemetry is on exactly when the resolved
    [ELIZAOS_EXPERIMENTAL_TELEMETRY] setting is the four letters of "true"
    in any mix of cases (no surrounding blanks, no "1" or "yes"); an unset
    setting leaves it off.  The text handlers pass that flag to
    [generateText]. *)
Theorem telemetry_needs_the_word_true (w : World) (p : GenerateTextParams) :
  getExperimentalTelemetry w =
    spells_true
      (default "false"
         (first_resolved [settings w !! "ELIZAOS_EXPERIMENTAL_TELEMETRY";
                          env w !! "ELIZAOS_EXPERIMENTAL_TELEMETRY"]))
  /\ gt_telemetry (textCall w (getSmallModel w) p) = getExperimentalTelemetry w
  /\ gt_telemetry (textCall w (getLargeModel w) p) = getExperimentalTelemetry w.
Proof.
  split; [|split; reflexivity].
  unfold getExperimentalTelemetry. rewrite lowercase_true, getSetting_first_resolved.
  destruct (first_resolved _); reflexivity.
Qed.

(** ** Tokenizer *)

Lemma tokenizer_model_name_family (w : World) (model : ModelType) :
  tokenizer_model_name w model =
    tokenizer_model_name w (if ModelType_eqb model TEXT_SMALL then TEXT_SMALL else TEXT_LARGE).
Proof. destruct model; reflexivity. Qed.

(** Property X5.  The tokenizer knows two families only: every model type
    other than [TEXT_SMALL] is tokenized and detokenized as [TEXT_LARGE], and
    a call of either tokenizer handler that leaves [modelType] out is a call
    for [TEXT_LARGE]. *)
Theorem tokenizer_has_two_families (w : World) (model : ModelType) (s : string)
    (tokens : list N) :
  let family := if ModelType_eqb model TEXT_SMALL then TEXT_SMALL else TEXT_LARGE in
  tokenizeText w model s = tokenizeText w family s
  /\ detokenizeText w model tokens = detokenizeText w family tokens
  /\ TEXT_TOKENIZER_ENCODE_handler w (mkTokenizeTextParams s None)
     = TEXT_TOKENIZER_ENCODE_handler w (mkTokenizeTextParams s (Some TEXT_LARGE))
  /\ TEXT_TOKENIZER_DECODE_handler w (mkDetokenizeTextParams tokens None)
     = TEXT_TOKENIZER_DECODE_handler w (mkDetokenizeTextParams tokens (Some TEXT_LARGE)).
Proof.
  intros family. subst family.
  rewrite !tokenizeText_resolution, !detokenizeText_resolution.
  rewrite <- (tokenizer_model_name_family w model).
  repeat split; reflexivity.
Qed.

(** Property X6.  The tokenizer reads the process environment only: the
    model name is the first non-nullish of the prefixed and the unprefixed
    environment variable, else the built-in name, and replacing the runtime
    settings changes nothing in what either tokenizer function returns. *)
Theorem tokenizer_reads_environment_only (w : World) (rt : gmap string string)
    (model : ModelType) (s : string) (tokens : list N) :
  tokenizer_model_name w TEXT_SMALL
  = default "gpt-4o"
      (first_resolved [env w !! "ELIZAOS_SMALL_MODEL"; env w !! "SMALL_MODEL"])
  /\ tokenizer_model_name w TEXT_LARGE
     = default "gpt-5-mini"
         (first_resolved [env w !! "ELIZAOS_LARGE_MODEL"; env w !! "LARGE_MODEL"])
  /\ tokenizeText (with_settings w rt) model s = tokenizeText w model s
  /\ detokenizeText (with_settings w rt) model tokens = detokenizeText w model tokens.
Proof.
  split; [|split; [|split; reflexivity]].
  - unfold tokenizer_model_name. simpl.
    destruct (env w !! "ELIZAOS_SMALL_MODEL"); [reflexivity|].
    destruct (env w !! "SMALL_MODEL"); reflexivity.
  - unfold tokenizer_model_name. simpl.
    destruct (env w !! "ELIZAOS_LARGE_MODEL"); [reflexivity|].
    destruct (env w !! "LARGE_MODEL"); reflexivity.
Qed.

(** Property X7.  Errors of [js-tiktoken] come out unchanged and without
    any effect: if the library does not know the resolved model name, both
    tokenizer functions and both handlers throw its error. *)
Theorem tokenizer_errors_propagate (w : World) (model : ModelType) (e : JsError) :
  encodingForModel w (tokenizer_model_name w model) = Thrown e ->
  (forall s,
     tokenizeText w model s = Thrown e
     /\ TEXT_TOKENIZER_ENCODE_handler w (mkTokenizeTextParams s (Some model))
        = ([], Thrown e))
  /\ (forall tokens,
        detokenizeText w model tokens = Thrown e
        /\ TEXT_TOKENIZER_DECODE_handler w (mkDetokenizeTextParams tokens (Some model))
           = ([], Thrown e)).
Proof.
  intros Hunknown. split.
  - intros s. unfold TEXT_TOKENIZER_ENCODE_handler, lift. simpl.
    rewrite tokenizeText_resolution, Hunknown. split; reflexivity.
  - intros tokens. unfold TEXT_TOKENIZER_DECODE_handler, lift. simpl.
    rewrite detokenizeText_resolution, Hunknown. split; reflexivity.
Qed.

Lemma tokenizer_errors_witness :
  let w := tokenizer_host ∅ {["ELIZAOS_SMALL_MODEL" := "my-own-model"]} in
  encodingForModel w (tokenizer_model_name w TEXT_SMALL) = Thrown (Error "Unknown model")
  /\ tokenizeText w TEXT_SMALL "hello" = Thrown (Error "Unknown model").
Proof.
  intros w.
  assert (H : encodingForModel w (tokenizer_model_name w TEXT_SMALL)
              = Thrown (Error "Unknown model")) by (vm_compute; reflexivity).
  split; [exact H|].
  exact (proj1 (proj1 (tokenizer_errors_propagate w TEXT_SMALL _ H) "hello")).
Defined.

(** ** JSON repair *)

Lemma prefix_fence_json_head (c : ascii) (s : string) :
  not_backtick c = true -> String.prefix fence_json_nl (String c s) = false.
Proof.
  intros Hc. set (f := fence_json_nl). vm_compute in f. subst f. cbn -[ascii_dec].
  destruct (ascii_dec "`" c) as [<-|]; [discriminate|reflexivity].
Qed.

Lemma prefix_fence_head (c : ascii) (s : string) :
  not_backtick c = true -> String.prefix fence (String c s) = false.
Proof.
  intros Hc. unfold fence. cbn -[ascii_dec].
  destruct (ascii_dec "`" c) as [<-|]; [discriminate|reflexivity].
Qed.

Lemma prefix_fence_plain (s : string) :
  all_chars not_backtick s = true -> String.prefix fence s = false.
Proof.
  destruct s as [|c s]; [reflexivity|]. simpl. intros H.
  apply andb_true_iff in H as [Hc _]. apply prefix_fence_head, Hc.
Qed.

Lemma prefix_nl_fence_plain (c : ascii) (s : string) :
  all_chars not_backtick s = true -> String.prefix nl_fence (String c s) = false.
Proof.
  intros Hs. unfold nl_fence. cbn [String.prefix].
  destruct (ascii_dec nl c); [|reflexivity].
  apply (prefix_fence_plain s Hs).
Qed.

Lemma strip_fences_plain (s : string) :
  all_chars not_backtick s = true -> strip_fences s = s.
Proof.
  unfold strip_fences. induction s as [|c s IH]; [reflexivity|].
  simpl all_chars. intros H. apply andb_true_iff in H as [Hc Hs].
  cbn [strip_fences_from].
  rewrite (prefix_fence_json_head c s Hc), (prefix_nl_fence_plain c s Hs),
    (prefix_fence_head c s Hc), (IH Hs).
  reflexivity.
Qed.

Lemma all_chars_app (f : ascii -> bool) (s t : string) :
  all_chars f (s +:+ t) = all_chars f s && all_chars f t.
Proof.
  induction s as [|c s IH]; [reflexivity|]. simpl. rewrite IH. apply andb_assoc.
Qed.

Lemma strip_closing_fence (body : string) :
  all_chars not_backtick body = true ->
  strip_fences_from 0 (body +:+ nl_fence) = body.
Proof.
  induction body as [|c body IH]; [reflexivity|].
  simpl all_chars. intros H. apply andb_true_iff in H as [Hc Hs].
  change (String c body +:+ nl_fence) with (String c (body +:+ nl_fence)).
  cbn [strip_fences_from].
  rewrite (prefix_fence_json_head c _ Hc), (prefix_fence_head c _ Hc).
  assert (Hnext : String.prefix nl_fence (String c (body +:+ nl_fence)) = false).
  { unfold nl_fence at 1. cbn [String.prefix].
    destruct (ascii_dec nl c); [|reflexivity].
    destruct body as [|d body]; [reflexivity|].
    simpl in Hs. apply andb_true_iff in Hs as [Hd _].
    apply (prefix_fence_head d _ Hd). }
  rewrite Hnext, (IH Hs). reflexivity.
Qed.

Lemma prefix_app (p rest : string) : String.prefix p (p +:+ rest) = true.
Proof.
  induction p as [|c p IH].
  - destruct rest; reflexivity.
  - change (String c p +:+ rest) with (String c (p +:+ rest)).
    cbn [String.prefix]. destruct (ascii_dec c c); [exact IH|contradiction].
Qed.

Lemma strip_opening_fence (rest : string) :
  strip_fences_from 0 (fence_json_nl +:+ rest) = strip_fences_from 0 rest.
Proof.
  pose proof (prefix_app fence_json_nl rest) as Hprefix.
  change (fence_json_nl +:+ rest)
    with (String "`" (String "`" (String "`" (String "j" (String "s" (String "o"
           (String "n" (String nl rest)))))))) in *.
  cbn [strip_fences_from]. rewrite Hprefix. reflexivity.
Qed.

(** Property X8.  The fence stripper of the JSON repair leaves text
    without a backtick as it is and unwraps a fenced block: from
    [```json], a line feed, a body without backticks, a line feed and [```]
    it keeps exactly the body. *)
Theorem strip_fences_unwraps (body : string) :
  all_chars not_backtick body = true ->
  strip_fences body = body
  /\ strip_fences (fence_json_nl +:+ body +:+ nl_fence) = body.
Proof.
  intros Hbody. split; [apply strip_fences_plain, Hbody|].
  unfold strip_fences. rewrite strip_opening_fence.
  apply strip_closing_fence, Hbody.
Qed.

Lemma strip_fences_witness :
  all_chars not_backtick "[1, 2, 3]" = true
  /\ strip_fences (fence_json_nl +:+ "[1, 2, 3]" +:+ nl_fence) = "[1, 2, 3]".
Proof.
  assert (H : all_chars not_backtick "[1, 2, 3]" = true) by reflexivity.
  split; [exact H|]. exact (proj2 (strip_fences_unwraps _ H)).
Defined.

(** Property X9.  Whatever text the repair function returns is the input
    without its fences and is accepted by [JSON.parse]; it only ever
    answers a JSON parse error. *)
Theorem repair_returns_parsable_text (w : World) (text repaired : string) (e : JsError) :
  getJsonRepairFunction w text e = Some repaired ->
  repaired = strip_fences text
  /\ (exists v, JSON_parse w repaired = Returned v)
  /\ (exists unparsed, err_class e = JSONParseError unparsed).
Proof.
  unfold getJsonRepairFunction. intros H.
  destruct (err_class e) as [| | |unparsed]; try discriminate.
  destruct (JSON_parse w (strip_fences text)) as [v|e'] eqn:Hparse; [|discriminate].
  injection H as <-. repeat split; eauto.
Qed.

Lemma repair_witness :
  let w := repairing_host (fence +:+ "[1]" +:+ fence) "[1]" (JArr [JNum 1%Q]) in
  getJsonRepairFunction w (fence +:+ "[1]" +:+ fence)
    (parse_error (fence +:+ "[1]" +:+ fence) "bad") = Some "[1]"
  /\ "[1]" = strip_fences (fence +:+ "[1]" +:+ fence).
Proof.
  intros w.
  assert (H : getJsonRepairFunction w (fence +:+ "[1]" +:+ fence)
                (parse_error (fence +:+ "[1]" +:+ fence) "bad") = Some "[1]")
    by (vm_compute; reflexivity).
  split; [exact H|].
  exact (proj1 (repair_returns_parsable_text w _ _ _ H)).
Defined.

(** Property X10.  When [generateObject] fails with a JSON parse error, the
    object handlers make no second call and report no usage: they return the
    value parsed from the fence-stripped text of the error if that parses,
    and rethrow the original parse error if it does not. *)
Theorem object_repair_path (w : World) (p : ObjectGenerationParams) (type : ModelType)
    (getModelFn : World -> string) (text msg : string) :
  generateObject w (objectCall w p getModelFn) = Thrown (parse_error text msg) ->
  (forall v, JSON_parse w (strip_fences text) = Returned v ->
     strip_fences text <> "" ->
     generateObjectByModelType w p type getModelFn
     = ([EvGenerateObject (objectCall w p getModelFn)], Returned v))
  /\ (forall e, JSON_parse w (strip_fences text) = Thrown e ->
        generateObjectByModelType w p type getModelFn
        = ([EvGenerateObject (objectCall w p getModelFn)],
           Thrown (parse_error text msg))).
Proof.
  intros Hfail. unfold generateObjectByModelType, perform, bind, try_catch.
  rewrite Hfail. unfold getJsonRepairFunction. simpl. split.
  - intros v Hparse Hne. rewrite Hparse.
    destruct (strip_fences text) eqn:Hclean; [contradiction|].
    simpl. unfold lift. rewrite Hparse. reflexivity.
  - intros e Hparse. rewrite Hparse. reflexivity.
Qed.

Lemma object_repair_witness :
  let text := fence_json_nl +:+ "[1]" +:+ nl_fence in
  let w := repairing_host text "[1]" (JArr [JNum 1%Q]) in
  let p := mkObjectGenerationParams "list one number" None None in
  generateObject w (objectCall w p getSmallModel) = Thrown (parse_error text "could not parse the response")
  /\ OBJECT_SMALL_handler w p
     = ([EvGenerateObject (objectCall w p getSmallModel)], Returned (JArr [JNum 1%Q])).
Proof.
  intros text w p.
  assert (H : generateObject w (objectCall w p getSmallModel)
              = Thrown (parse_error text "could not parse the response")) by reflexivity.
  split; [exact H|].
  apply (proj1 (object_repair_path w p OBJECT_SMALL getSmallModel text _ H)).
  - vm_compute. reflexivity.
  - vm_compute. discriminate.
Defined.

(** Property X11.  The object handlers never look at the schema: a call
    with any schema issues the same [generateObject] call, with temperature
    0 unless one is given, and completes in the same way as the call without
    it; on success the completion is the object the package returned. *)
Theorem object_schema_is_ignored (w : World) (p : ObjectGenerationParams)
    (schema : option JsValue) (type : ModelType) (getModelFn : World -> string) :
  generateObjectByModelType w (with_schema p schema) type getModelFn
  = generateObjectByModelType w p type getModelFn
  /\ go_temperature (objectCall w p getModelFn) = default 0%Q (og_temperature p)
  /\ (forall res, generateObject w (objectCall w p getModelFn) = Returned res ->
        completion (generateObjectByModelType w p type getModelFn)
        = Returned (go_object res)).
Proof.
  split; [destruct p; reflexivity|]. split; [reflexivity|].
  intros res Hres. unfold generateObjectByModelType, perform, bind, try_catch.
  rewrite Hres. simpl. destruct (go_usage res); reflexivity.
Qed.

(** ** Text to speech *)

Lemma rethrow_is_identity {A : Type} (m : M A) :
  try_catch m (fun error => throw error) = m.
Proof.
  destruct m as [t [a|e]]; unfold try_catch, throw; [reflexivity|].
  rewrite app_nil_r. reflexivity.
Qed.

(** Property X12.  Text to speech always issues exactly its one request,
    key or no key, and has two outcomes only: the body stream of a 2xx
    reply, or a plain error whose message starts with "Failed to fetch speech
    from ElizaOS TTS: " -- a rejected request, an error status and an
    unreadable error body are all wrapped that way.  The handler's own
    try/catch adds nothing to [fetchTextToSpeech]. *)
Theorem speech_errors_are_wrapped (w : World) (text : string) :
  TEXT_TO_SPEECH_handler w text = fetchTextToSpeech w text
  /\ trace (fetchTextToSpeech w text) = [EvFetch (speechRequest w text)]
  /\ ((exists r, fetch w (speechRequest w text) = Returned r /\ ok r = true
                 /\ completion (fetchTextToSpeech w text) = Returned (resp_body r))
      \/ (exists m, completion (fetchTextToSpeech w text)
                    = Thrown (Error ("Failed to fetch speech from ElizaOS TTS: " +:+ m)))).
Proof.
  split; [apply rethrow_is_identity|].
  unfold fetchTextToSpeech, perform, try_catch, bind, lift, throw, ret, trace, completion.
  destruct (fetch w (speechRequest w text)) as [r|e] eqn:Hr; simpl.
  - destruct (ok r) eqn:Hok; simpl.
    + split; [reflexivity|]. left. exists r. repeat split; try reflexivity. exact Hok.
    + destruct (resp_text r) as [raw|e]; simpl; (split; [reflexivity|]); right; eauto.
  - split; [reflexivity|]. right. eauto.
Qed.

Lemma getSetting_with_default (w : World) (key d : string) :
  getSetting w key (Some d)
  = Some (default d (first_resolved [settings w !! key; env w !! key])).
Proof. rewrite getSetting_first_resolved. destruct (first_resolved _); reflexivity. Qed.

(** Property X13.  The speech request is a POST to [/audio/speech] whose
    JSON body holds the text as [input], the resolved model and voice
    (defaults "gpt-4o-mini-tts" and "nova"), and an [instructions] field
    only when the resolved instructions are a non-empty string. *)
Theorem speech_request_fields (w : World) (text : string) :
  let req := speechRequest w text in
  let resolved key := first_resolved [settings w !! key; env w !! key] in
  url req = getBaseURL w +:+ "/audio/speech"
  /\ method req = "POST"
  /\ body_field req "input" = Some (JStr text)
  /\ body_field req "model"
     = Some (JStr (default "gpt-4o-mini-tts" (resolved "ELIZAOS_TTS_MODEL")))
  /\ body_field req "voice" = Some (JStr (default "nova" (resolved "ELIZAOS_TTS_VOICE")))
  /\ body_field req "instructions"
     = match resolved "ELIZAOS_TTS_INSTRUCTIONS" with
       | Some i => if truthy_str i then Some (JStr i) else None
       | None => None
       end.
Proof.
  intros req resolved. subst req resolved.
  unfold speechRequest, body_field. cbn [url method body].
  rewrite !getSetting_with_default.
  repeat split; try reflexivity.
  destruct (first_resolved [settings w !! "ELIZAOS_TTS_INSTRUCTIONS";
                            env w !! "ELIZAOS_TTS_INSTRUCTIONS"]) as [i|]; simpl.
  - destruct (truthy_str i); reflexivity.
  - reflexivity.
Qed.

(** ** Text generation *)

(** Property X14.  The text handlers check no credential of their own:
    every invocation makes the one [generateText] call, with the client
    built from the resolved key (possibly [undefined]) and base URL, the
    prompt, and the character's system prompt.  They return exactly the text
    of the result and throw exactly the error of the call; the small and the
    large handler differ in the model name and the event type only. *)
Theorem text_generation_passes_through (w : World) (p : GenerateTextParams) :
  (forall modelName,
     gt_client (textCall w modelName p) = mkClient (getApiKey w) (getBaseURL w)
     /\ gt_prompt (textCall w modelName p) = gp_prompt p
     /\ gt_system (textCall w modelName p) = character_system w)
  /\ completion (TEXT_SMALL_handler w p)
     = match generateText w (textCall w (getSmallModel w) p) with
       | Returned res => Returned (gt_text res)
       | Thrown e => Thrown e
       end
  /\ completion (TEXT_LARGE_handler w p)
     = match generateText w (textCall w (getLargeModel w) p) with
       | Returned res => Returned (gt_text res)
       | Thrown e => Thrown e
       end
  /\ (getSmallModel w = getLargeModel w ->
      completion (TEXT_SMALL_handler w p) = completion (TEXT_LARGE_handler w p)
      /\ outbound (trace (TEXT_SMALL_handler w p))
         = outbound (trace (TEXT_LARGE_handler w p))).
Proof.
  assert (Hsmall : completion (TEXT_SMALL_handler w p)
     = match generateText w (textCall w (getSmallModel w) p) with
       | Returned res => Returned (gt_text res)
       | Thrown e => Thrown e
       end).
  { unfold TEXT_SMALL_handler, perform, bind, completion.
    destruct (generateText w (textCall w (getSmallModel w) p)) as [res|e]; [|reflexivity].
    destruct (gt_usage res); reflexivity. }
  assert (Hlarge : completion (TEXT_LARGE_handler w p)
     = match generateText w (textCall w (getLargeModel w) p) with
       | Returned res => Returned (gt_text res)
       | Thrown e => Thrown e
       end).
  { unfold TEXT_LARGE_handler, perform, bind, completion.
    destruct (generateText w (textCall w (getLargeModel w) p)) as [res|e]; [|reflexivity].
    destruct (gt_usage res); reflexivity. }
  split; [intros modelName; repeat split; reflexivity|].
  split; [exact Hsmall|]. split; [exact Hlarge|].
  intros Hsame. split.
  - rewrite Hsmall, Hlarge, Hsame. reflexivity.
  - rewrite text_small_trace, text_large_trace, !outbound_cons_usage by reflexivity.
    rewrite Hsame. reflexivity.
Qed.

(** Sampling parameters that are left out take the values
    0.7 (temperature and both penalties), 8192 (maximum tokens) and the
    empty list (stop sequences); a parameter that is given, zero included, is
    passed on as it is. *)
Theorem text_call_defaults (w : World) (modelName prompt : string) :
  (let call := textCall w modelName (mkGenerateTextParams prompt None None None None None) in
   gt_temperature call = (7 # 10)%Q /\ gt_maxTokens call = 8192%Q
   /\ gt_frequencyPenalty call = (7 # 10)%Q /\ gt_presencePenalty call = (7 # 10)%Q
   /\ gt_stopSequences call = [])
  /\ (forall stop maxTokens temperature frequency presence,
        let call := textCall w modelName
                      (mkGenerateTextParams prompt (Some stop) (Some maxTokens)
                         (Some temperature) (Some frequency) (Some presence)) in
        gt_temperature call = temperature /\ gt_maxTokens call = maxTokens
        /\ gt_frequencyPenalty call = frequency /\ gt_presencePenalty call = presence
        /\ gt_stopSequences call = stop).
Proof. split; [|intros]; repeat split; reflexivity. Qed.

(** ** Image generation *)

(** Property X15.  The image request is a POST to [/images/generations]
    carrying the prompt; a count that is left out or zero becomes 1, a size
    that is left out or empty becomes "1024x1024", and any other count or
    size is sent as given. *)
Theorem image_request_defaults (w : World) (prompt : string) :
  (forall n size,
     url (imageRequest w (mkImageParams prompt n size)) = getBaseURL w +:+ "/images/generations"
     /\ body_field (imageRequest w (mkImageParams prompt n size)) "prompt"
        = Some (JStr prompt))
  /\ (forall size,
        body_field (imageRequest w (mkImageParams prompt None size)) "n" = Some (JNum 1%Q)
        /\ body_field (imageRequest w (mkImageParams prompt (Some 0%Q) size)) "n"
           = Some (JNum 1%Q))
  /\ (forall k size, num_is_zero k = false ->
        body_field (imageRequest w (mkImageParams prompt (Some k) size)) "n"
        = Some (JNum k))
  /\ (forall n,
        body_field (imageRequest w (mkImageParams prompt n None)) "size"
        = Some (JStr "1024x1024")
        /\ body_field (imageRequest w (mkImageParams prompt n (Some ""))) "size"
           = Some (JStr "1024x1024"))
  /\ (forall n size, size <> "" ->
        body_field (imageRequest w (mkImageParams prompt n (Some size))) "size"
        = Some (JStr size)).
Proof.
  unfold imageRequest, body_field. cbn [body url img_n img_size img_prompt assoc].
  repeat split; try reflexivity.
  - intros k size Hk. simpl. rewrite Hk. reflexivity.
  - intros n size Hsize. simpl. destruct size; [contradiction|reflexivity].
Qed.

(** Property X16.  With a key, a 2xx reply that parses to an object makes
    the image handler return that object's [data] property as it is --
    [undefined] when the reply has none -- while a reply that parses to
    [null] makes it throw the type error of reading [data]; a reply that
    does not parse makes it throw the parser's error. *)
Theorem image_reply_is_not_validated (w : World) (p : ImageParams) (r : Response)
    (raw : string) :
  truthy_opt (getApiKey w) = true ->
  fetch w (imageRequest w p) = Returned r ->
  resp_text r = Returned raw ->
  ok r = true ->
  (forall fields, resp_json r = Returned (JObj fields) ->
     completion (IMAGE_handler w p) = Returned (default JUndefined (assoc "data" fields)))
  /\ (resp_json r = Returned JNull ->
      exists msg, completion (IMAGE_handler w p) = Thrown (mkError TypeError msg))
  /\ (forall e, resp_json r = Thrown e -> completion (IMAGE_handler w p) = Thrown e).
Proof.
  intros Hkey Hr Hraw Hok.
  unfold IMAGE_handler, perform, try_catch, bind, lift, throw, completion.
  rewrite Hkey, Hr. simpl. rewrite Hraw. simpl. rewrite Hok. simpl.
  split; [|split].
  - intros fields ->. reflexivity.
  - intros ->. simpl. eauto.
  - intros e ->. reflexivity.
Qed.

Lemma image_reply_witness :
  let w := upstream 200 "OK" "" (Returned (JObj [("created", JNum 1%Q)])) in
  let p := mkImageParams "a cat" None None in
  let r := mkResponse 200 "OK" (Returned "") (Returned (JObj [("created", JNum 1%Q)]))
             (Some "") in
  truthy_opt (getApiKey w) = true
  /\ fetch w (imageRequest w p) = Returned r
  /\ resp_text r = Returned ""
  /\ ok r = true
  /\ completion (IMAGE_handler w p) = Returned JUndefined.
Proof.
  intros w p r.
  assert (H1 : truthy_opt (getApiKey w) = true) by (vm_compute; reflexivity).
  assert (H2 : fetch w (imageRequest w p) = Returned r) by reflexivity.
  assert (H3 : resp_text r = Returned "") by reflexivity.
  assert (H4 : ok r = true) by reflexivity.
  repeat (split; [assumption|]).
  exact (proj1 (image_reply_is_not_validated w p r "" H1 H2 H3 H4) _ eq_refl).
Defined.

(** ** Transcription *)

(** Property X17.  Transcription checks the key before the audio: without
    a key even an empty buffer gets the missing-credential error.  With a
    key, a missing or empty buffer is rejected before any request; a
    non-empty buffer is posted to [/audio/transcriptions] as form data (the
    bytes as file "recording.mp3", model "whisper-1") with the bearer header
    alone, and a 2xx reply that parses to an object yields its [text]
    property as it is. *)
Theorem transcription_checks_in_order (w : World) :
  (truthy_opt (getApiKey w) = false ->
     TRANSCRIPTION_handler w (Some [])
     = ([], Thrown (Error "ElizaOS API key not configured - Cannot make request")))
  /\ (truthy_opt (getApiKey w) = true ->
      TRANSCRIPTION_handler w None
      = ([], Thrown (Error "Audio buffer is empty or invalid for transcription"))
      /\ TRANSCRIPTION_handler w (Some [])
         = ([], Thrown (Error "Audio buffer is empty or invalid for transcription")))
  /\ (forall b bytes,
        url (transcriptionRequest w (b :: bytes)) = getBaseURL w +:+ "/audio/transcriptions"
        /\ headers (transcriptionRequest w (b :: bytes))
           = [("Authorization", "Bearer " +:+ interpolate (getApiKey w))]
        /\ body (transcriptionRequest w (b :: bytes))
           = FormBody [FilePart "file" (b :: bytes) "recording.mp3";
                       TextPart "model" "whisper-1"])
  /\ (forall b bytes r raw fields,
        truthy_opt (getApiKey w) = true ->
        fetch w (transcriptionRequest w (b :: bytes)) = Returned r ->
        resp_text r = Returned raw -> ok r = true ->
        resp_json r = Returned (JObj fields) ->
        TRANSCRIPTION_handler w (Some (b :: bytes))
        = ([EvFetch (transcriptionRequest w (b :: bytes))],
           Returned (default JUndefined (assoc "text" fields)))).
Proof.
  split; [|split; [|split]].
  - apply transcription_missing_key.
  - intros Hkey. unfold TRANSCRIPTION_handler. rewrite Hkey. split; reflexivity.
  - intros b bytes. repeat split; reflexivity.
  - intros b bytes r raw fields Hkey Hr Hraw Hok Hjson.
    unfold TRANSCRIPTION_handler, perform, try_catch, bind, lift.
    rewrite Hkey. simpl. rewrite Hr. simpl. rewrite Hraw. simpl. rewrite Hok. simpl.
    rewrite Hjson. reflexivity.
Qed.

(** ** Image description *)

(** Property X18.  The image-description handler never throws: whatever
    the key, the parameters and the network do, it returns a value.  A
    rejected request and a reply that does not parse come back as the
    placeholder "Failed to analyze image" with "Error: " and the error's
    message, and a 2xx reply without content as the placeholder with "No
    response from API". *)
Theorem description_never_throws (w : World) (p : ImageDescriptionParams) :
  (exists v, completion (IMAGE_DESCRIPTION_handler w p) = Returned v)
  /\ (truthy_opt (getApiKey w) = true ->
      (forall e, fetch w (imageDescriptionRequest w p) = Thrown e ->
         completion (IMAGE_DESCRIPTION_handler w p)
         = Returned (TitleDescription "Failed to analyze image"
                                      ("Error: " +:+ message e)))
      /\ (forall r raw e,
            fetch w (imageDescriptionRequest w p) = Returned r ->
            resp_text r = Returned raw -> ok r = true -> resp_json r = Thrown e ->
            completion (IMAGE_DESCRIPTION_handler w p)
            = Returned (TitleDescription "Failed to analyze image"
                                         ("Error: " +:+ message e)))
      /\ (forall r raw fields,
            fetch w (imageDescriptionRequest w p) = Returned r ->
            resp_text r = Returned raw -> ok r = true ->
            resp_json r = Returned (JObj fields) ->
            truthy (description_content (JObj fields)) = false ->
            completion (IMAGE_DESCRIPTION_handler w p)
            = Returned (TitleDescription "Failed to analyze image"
                                         "No response from API"))).
Proof.
  split.
  - destruct (truthy_opt (getApiKey w)) eqn:Hkey.
    + rewrite (description_network_phase w p Hkey). simpl. eauto.
    + rewrite (description_missing_key w p Hkey). simpl. eauto.
  - intros Hkey. rewrite (description_network_phase w p Hkey).
    unfold description_reply, completion. cbn [snd].
    split; [|split].
    + intros e ->. reflexivity.
    + intros r raw e -> -> -> ->. reflexivity.
    + intros r raw fields -> -> -> -> Hcontent. cbn [get]. cbv zeta.
      rewrite Hcontent. reflexivity.
Qed.

(** Property X19.  Usage is accounted for before the content is looked
    at: a 2xx image-description reply with usage data but without content
    yields the "No response from API" placeholder and still hands the host
    the one usage event, recorded for the image URL when the parameters are
    a bare URL. *)
Theorem description_usage_precedes_content (w : World) (p : ImageDescriptionParams)
    (r : Response) (raw : string) (fields : list (string * JsValue)) :
  truthy_opt (getApiKey w) = true ->
  fetch w (imageDescriptionRequest w p) = Returned r ->
  resp_text r = Returned raw -> ok r = true ->
  resp_json r = Returned (JObj fields) ->
  truthy (get_opt (JObj fields) "usage") = true ->
  truthy (description_content (JObj fields)) = false ->
  completion (IMAGE_DESCRIPTION_handler w p)
  = Returned (TitleDescription "Failed to analyze image" "No response from API")
  /\ emitted (trace (IMAGE_DESCRIPTION_handler w p))
     = [(MODEL_USED,
         mkUsagePayload "elizaos" IMAGE_DESCRIPTION (description_prompt p)
           (get_opt (get_opt (JObj fields) "usage") "prompt_tokens")
           (get_opt (get_opt (JObj fields) "usage") "completion_tokens")
           (get_opt (get_opt (JObj fields) "usage") "total_tokens"))]
  /\ (forall imageUrl, description_prompt (DescribeUrl imageUrl) = imageUrl).
Proof.
  intros Hkey Hr Hraw Hok Hjson Husage Hcontent.
  rewrite (description_network_phase w p Hkey).
  unfold description_reply, description_usage, completion, trace. cbn [fst snd].
  rewrite Hr, Hraw, Hok, Hjson. cbn [get]. cbv zeta.
  rewrite Hcontent, Husage. repeat split; reflexivity.
Qed.

Lemma description_usage_witness :
  let reply := [("usage", usage_json)] in
  let w := upstream 200 "OK" "" (Returned (JObj reply)) in
  let p := DescribeUrl "https://img.example/cat.png" in
  let r := mkResponse 200 "OK" (Returned "") (Returned (JObj reply)) (Some "") in
  truthy_opt (getApiKey w) = true
  /\ fetch w (imageDescriptionRequest w p) = Returned r
  /\ resp_text r = Returned ""
  /\ ok r = true
  /\ resp_json r = Returned (JObj reply)
  /\ truthy (get_opt (JObj reply) "usage") = true
  /\ truthy (description_content (JObj reply)) = false
  /\ completion (IMAGE_DESCRIPTION_handler w p)
     = Returned (TitleDescription "Failed to analyze image" "No response from API").
Proof.
  intros reply w p r.
  assert (H1 : truthy_opt (getApiKey w) = true) by (vm_compute; reflexivity).
  assert (H2 : fetch w (imageDescriptionRequest w p) = Returned r) by reflexivity.
  assert (H3 : resp_text r = Returned "") by reflexivity.
  assert (H4 : ok r = true) by reflexivity.
  assert (H5 : resp_json r = Returned (JObj reply)) by reflexivity.
  assert (H6 : truthy (get_opt (JObj reply) "usage") = true) by reflexivity.
  assert (H7 : truthy (description_content (JObj reply)) = false) by reflexivity.
  repeat (split; [assumption|]).
  exact (proj1 (description_usage_precedes_content w p r "" reply H1 H2 H3 H4 H5 H6 H7)).
Defined.

Lemma getSetting_other_key (w : World) (k v key : string) (d : option string) :
  k <> key ->
  getSetting (with_settings w (<[k := v]> (settings w))) key d = getSetting w key d.
Proof.
  intros Hne. unfold getSetting, with_settings. cbn [settings env].
  rewrite lookup_insert_ne by exact Hne. reflexivity.
Qed.

(** Property X20.  The token limit of an image description is read from
    [OPENAI_IMAGE_DESCRIPTION_MAX_TOKENS] (default 8192; the double that
    [parseInt] makes of it, [null] on the wire when that is no finite
    number); the runtime setting
    [ELIZAOS_IMAGE_DESCRIPTION_MAX_TOKENS] does not reach the request,
    whatever its value. *)
Theorem description_token_limit_key (w : World) (p : ImageDescriptionParams) (v : string) :
  imageDescriptionRequest
    (with_settings w (<["ELIZAOS_IMAGE_DESCRIPTION_MAX_TOKENS" := v]> (settings w))) p
  = imageDescriptionRequest w p
  /\ body_field (imageDescriptionRequest w p) "max_tokens"
     = Some (of_opt_int
               (parseInt10
                  (or_default
                     (first_resolved [settings w !! "OPENAI_IMAGE_DESCRIPTION_MAX_TOKENS";
                                      env w !! "OPENAI_IMAGE_DESCRIPTION_MAX_TOKENS"])
                     "8192"))).
Proof.
  split.
  - unfold imageDescriptionRequest, getImageDescriptionModel, getBaseURL, getApiKey.
    rewrite !getSetting_other_key by discriminate. reflexivity.
  - unfold imageDescriptionRequest, body_field.
    rewrite getSetting_with_default.
    remember (first_resolved [settings w !! "OPENAI_IMAGE_DESCRIPTION_MAX_TOKENS";
                              env w !! "OPENAI_IMAGE_DESCRIPTION_MAX_TOKENS"]) as limit.
    simpl. destruct limit; reflexivity.
Qed.

(** The limit on the wire is the double the setting parses to: the nearest
    one for an integer beyond [2 ^ 53], and [null] for a setting that names
    no number. *)
Lemma description_token_limit_witness :
  let at_limit v :=
    host ∅ (<["OPENAI_IMAGE_DESCRIPTION_MAX_TOKENS" := v]> keyed) no_network in
  let p := DescribeUrl "https://img.example/cat.png" in
  body_field (imageDescriptionRequest (at_limit "9007199254740993") p) "max_tokens"
  = Some (JNum 9007199254740992%Q)
  /\ body_field (imageDescriptionRequest (at_limit "4096 tokens") p) "max_tokens"
     = Some (JNum 4096%Q)
  /\ body_field (imageDescriptionRequest (at_limit "many") p) "max_tokens" = Some JNull.
Proof.
  intros at_limit p.
  split; [|split].
  - rewrite (proj2 (description_token_limit_key (at_limit "9007199254740993") p "")).
    vm_compute. reflexivity.
  - rewrite (proj2 (description_token_limit_key (at_limit "4096 tokens") p "")).
    vm_compute. reflexivity.
  - rewrite (proj2 (description_token_limit_key (at_limit "many") p "")).
    vm_compute. reflexivity.
Defined.

(** ** Embeddings: dimension and input shape *)

(** Property X21.  A configured dimension outside [VECTOR_DIMS] makes the
    embedding handler throw for every input, [null] included and whatever
    the credentials are, before any effect; the message names the parsed
    dimension, printed as the double it is, and lists the allowed ones. *)
Theorem invalid_dimension_rejects_every_input (w : World) (p : TextEmbeddingParams) :
  valid_dimension w = false ->
  TEXT_EMBEDDING_handler w p
  = ([], Thrown (Error ("Invalid embedding dimension: " +:+ show_int (embeddingDimension w)
                        +:+ ". Must be one of: " +:+ join_ints (VECTOR_DIMS w)))).
Proof.
  unfold valid_dimension, TEXT_EMBEDDING_handler. intros ->. reflexivity.
Qed.

Lemma invalid_dimension_witness :
  let w := host ∅ {["ELIZAOS_EMBEDDING_DIMENSIONS" := "99999999999999999999999"]}
             no_network in
  valid_dimension w = false
  /\ TEXT_EMBEDDING_handler w EmbedNull
     = ([], Thrown (Error "Invalid embedding dimension: 1e+23. Must be one of: 384, 512, 768, 1024, 1536, 3072")).
Proof.
  intros w.
  assert (H : valid_dimension w = false) by (vm_compute; reflexivity).
  split; [exact H|].
  exact (invalid_dimension_rejects_every_input w EmbedNull H).
Defined.

(** The parsed dimension is a double and is printed as one: an integer
    beyond [2 ^ 53] reads as its nearest double, and a setting that names no
    number as [NaN]. *)
Lemma invalid_dimension_messages :
  let at_dimension d := host ∅ {["ELIZAOS_EMBEDDING_DIMENSIONS" := d]} no_network in
  completion (TEXT_EMBEDDING_handler (at_dimension "1000") (EmbedString "hello"))
  = Thrown (Error "Invalid embedding dimension: 1000. Must be one of: 384, 512, 768, 1024, 1536, 3072")
  /\ completion (TEXT_EMBEDDING_handler (at_dimension "9007199254740993") EmbedNull)
     = Thrown (Error "Invalid embedding dimension: 9007199254740992. Must be one of: 384, 512, 768, 1024, 1536, 3072")
  /\ completion (TEXT_EMBEDDING_handler (at_dimension "-12") EmbedNull)
     = Thrown (Error "Invalid embedding dimension: -12. Must be one of: 384, 512, 768, 1024, 1536, 3072")
  /\ completion (TEXT_EMBEDDING_handler (at_dimension "large") EmbedNull)
     = Thrown (Error "Invalid embedding dimension: NaN. Must be one of: 384, 512, 768, 1024, 1536, 3072").
Proof. vm_compute. repeat split; reflexivity. Qed.

(** Property X22.  The dimension is 1536 unless a non-empty
    [ELIZAOS_EMBEDDING_DIMENSIONS] is resolvable: an unset and an
    empty-string setting both fall back to it.  A setting that does not
    start with a number (after blanks and a sign) parses to [NaN], which no
    [VECTOR_DIMS] contains. *)
Theorem dimension_setting_fallback (w : World) :
  (unresolvable w "ELIZAOS_EMBEDDING_DIMENSIONS" -> embeddingDimension w = Some 1536%Z)
  /\ (embeddingDimension w = None -> valid_dimension w = false).
Proof.
  split.
  - unfold unresolvable, embeddingDimension. rewrite getSetting_with_default.
    rewrite getSetting_first_resolved.
    destruct (first_resolved _) as [s|]; simpl; [|reflexivity].
    intros Hs. destruct s; [reflexivity|discriminate].
  - unfold valid_dimension. intros ->. reflexivity.
Qed.

(** Property X23.  For a non-empty text it makes no difference whether the
    embedding handler is given the bare string or an object with that text;
    for the empty text it does: the object is an invalid input (0.2
    sentinel), the string a blank text (0.3 sentinel). *)
Theorem embedding_object_or_string (w : World) (text : string) :
  text <> "" ->
  TEXT_EMBEDDING_handler w (EmbedObject text) = TEXT_EMBEDDING_handler w (EmbedString text)
  /\ (forall n, valid_dimension w = true -> embeddingDimension w = Some n ->
        (0 < n < 2 ^ 32)%Z ->
        TEXT_EMBEDDING_handler w (EmbedObject "")
        = ([], Returned (sentinel_vector n (2 # 10)%Q))
        /\ TEXT_EMBEDDING_handler w (EmbedString "")
           = ([], Returned (sentinel_vector n (3 # 10)%Q))).
Proof.
  intros Hne. split.
  - unfold TEXT_EMBEDDING_handler. destruct text; [contradiction|reflexivity].
  - intros n Hvalid Hdim Hn. split.
    + apply (embedding_invalid_input w n); try assumption; [discriminate|reflexivity].
    + apply (embedding_blank_text w n Hvalid Hdim Hn (EmbedString "") ""); reflexivity.
Qed.

Lemma embedding_object_or_string_witness :
  "hello" <> ""
  /\ TEXT_EMBEDDING_handler offline (EmbedObject "hello")
     = TEXT_EMBEDDING_handler offline (EmbedString "hello").
Proof.
  assert (H : "hello" <> "") by discriminate.
  split; [exact H|]. exact (proj1 (embedding_object_or_string offline "hello" H)).
Defined.

(** ** Start-up *)

(** Property X24.  The start-up check never fails and never asks twice:
    without a key it issues no request, with a key exactly one GET to
    [/models] under the base URL with the bearer header and nothing else,
    and whatever comes back -- a rejection, an error status, a body that
    does not parse -- it completes normally. *)
Theorem startup_check_is_harmless (w : World) :
  init_background w
  = (if truthy_opt (getApiKey w) then [EvFetch (modelsRequest w)] else [], Returned tt)
  /\ url (modelsRequest w) = getBaseURL w +:+ "/models"
  /\ method (modelsRequest w) = "GET"
  /\ headers (modelsRequest w) = [("Authorization", "Bearer " +:+ interpolate (getApiKey w))]
  /\ body (modelsRequest w) = NoBody.
Proof.
  split; [|repeat split; reflexivity].
  unfold init_background, perform, try_catch, bind, lift, ret.
  destruct (truthy_opt (getApiKey w)); simpl; [|reflexivity].
  destruct (fetch w (modelsRequest w)) as [r|e]; simpl; [|reflexivity].
  destruct (ok r); simpl; [|reflexivity].
  destruct (resp_json r); reflexivity.
Qed.

(** Property X25.  The plugin's connectivity test issues its request to
    [/models] whether or not a key is configured.  It passes exactly when
    the request is answered with a 2xx status and a body that parses; an
    error status with a parsable body fails it with "Failed to validate
    ElizaOS API key: " and the status text, and a body that does not parse
    fails it with the parser's error, whatever the status. *)
Theorem connectivity_test_outcomes (w : World) :
  trace (test_url_and_api_key_validation w) = [EvFetch (modelsRequest w)]
  /\ (completion (test_url_and_api_key_validation w) = Returned tt
      <-> exists r v, fetch w (modelsRequest w) = Returned r
                      /\ resp_json r = Returned v /\ ok r = true)
  /\ (forall r v, fetch w (modelsRequest w) = Returned r ->
        resp_json r = Returned v -> ok r = false ->
        completion (test_url_and_api_key_validation w)
        = Thrown (Error ("Failed to validate ElizaOS API key: " +:+ statusText r)))
  /\ (forall r e, fetch w (modelsRequest w) = Returned r -> resp_json r = Thrown e ->
        completion (test_url_and_api_key_validation w) = Thrown e)
  /\ (forall e, fetch w (modelsRequest w) = Thrown e ->
        completion (test_url_and_api_key_validation w) = Thrown e).
Proof.
  unfold test_url_and_api_key_validation, perform, bind, lift, throw, ret, trace, completion.
  destruct (fetch w (modelsRequest w)) as [r|e]; simpl.
  - destruct (resp_json r) as [v|e] eqn:Hjson; simpl.
    + destruct (ok r) eqn:Hok; simpl.
      * split; [reflexivity|]. split; [|split; [|split]].
        -- split; [intros _; exists r, v; auto|reflexivity].
        -- intros r' v' H. injection H as <-. intros _ H. rewrite Hok in H. discriminate.
        -- intros r' e H. injection H as <-. rewrite Hjson. discriminate.
        -- discriminate.
      * split; [reflexivity|]. split; [|split; [|split]].
        -- split; [discriminate|].
           intros (r' & v' & H & _ & Hok'). injection H as <-.
           rewrite Hok in Hok'. discriminate.
        -- intros r' v' H. injection H as <-. reflexivity.
        -- intros r' e H. injection H as <-. rewrite Hjson. discriminate.
        -- discriminate.
    + split; [reflexivity|]. split; [|split; [|split]].
      * split; [discriminate|].
        intros (r' & v' & H & Hv & _). injection H as <-.
        rewrite Hjson in Hv. discriminate.
      * intros r' v' H. injection H as <-. rewrite Hjson. discriminate.
      * intros r' e' H. injection H as <-. rewrite Hjson. intros H. injection H as <-.
        reflexivity.
      * discriminate.
  - split; [reflexivity|]. split; [|split; [|split]].
    + split; [discriminate|]. intros (r & v & H & _). discriminate.
    + discriminate.
    + discriminate.
    + intros e' H. injection H as <-. reflexivity.
Qed.

(** ** The parsed title *)

Lemma length_app (s t : string) :
  String.length (s +:+ t) = (String.length s + String.length t)%nat.
Proof. induction s as [|c s IH]; [reflexivity|]. simpl. rewrite IH. reflexivity. Qed.

Lemma literal_ci_length (lit s rest : string) :
  literal_ci lit s = Some rest ->
  String.length s = (String.length lit + String.length rest)%nat.
Proof.
  revert s. induction lit as [|a lit IH]; intros s H.
  - destruct s; injection H as <-; reflexivity.
  - destruct s as [|c s]; simpl in H; [discriminate|].
    destruct (Ascii.eqb (fold_case c) a); [|discriminate].
    simpl. rewrite (IH s H). reflexivity.
Qed.

Lemma lazy_rest_sound (r g rem : string) :
  lazy_rest r = Some (g, rem) ->
  all_chars is_dot g = true
  /\ (String.length g + String.length rem <= String.length r)%nat.
Proof.
  revert g rem. induction r as [|c r IH]; intros g rem H; simpl in H.
  - injection H as <- <-. split; [reflexivity|simpl; lia].
  - destruct (Ascii.eqb c nl).
    + injection H as <- <-. split; [reflexivity|simpl; lia].
    + destruct (is_dot c) eqn:Hc; [|discriminate].
      destruct (lazy_rest r) as [[g' rem']|]; [|discriminate].
      injection H as <- <-. destruct (IH g' rem' eq_refl) as [Hdot Hlen].
      split; [simpl; rewrite Hc, Hdot; reflexivity|simpl; lia].
Qed.

Lemma group_end_sound (r g rem : string) :
  group_end r = Some (g, rem) ->
  g <> "" /\ all_chars is_dot g = true
  /\ (String.length g + String.length rem <= String.length r)%nat.
Proof.
  destruct r as [|c r]; simpl; [discriminate|].
  destruct (is_dot c) eqn:Hc; [|discriminate].
  destruct (lazy_rest r) as [[g' rem']|] eqn:Hrest; [|discriminate].
  intros H. injection H as <- <-.
  destruct (lazy_rest_sound r g' rem' Hrest) as [Hdot Hlen].
  split; [discriminate|]. split; [simpl; rewrite Hc, Hdot; reflexivity|simpl; lia].
Qed.

Lemma seps_group_end_sound (r g rem : string) :
  seps_group_end r = Some (g, rem) ->
  g <> "" /\ all_chars is_dot g = true
  /\ (String.length g + String.length rem <= String.length r)%nat.
Proof.
  induction r as [|c r IH]; [discriminate|].
  cbn [seps_group_end]. destruct (is_sep c).
  - destruct (seps_group_end r) as [res|].
    + intros H. injection H as ->.
      destruct (IH eq_refl) as (Hne & Hdot & Hlen).
      split; [exact Hne|]. split; [exact Hdot|simpl; lia].
    + apply group_end_sound.
  - apply group_end_sound.
Qed.

Lemma title_here_sound (s g rem : string) :
  title_here s = Some (g, rem) ->
  g <> "" /\ all_chars is_dot g = true
  /\ (String.length g + String.length rem + 6 <= String.length s)%nat.
Proof.
  unfold title_here.
  destruct (literal_ci "title" s) as [[|c r]|] eqn:Hlit; try discriminate.
  destruct (is_sep c); [|discriminate]. intros H.
  destruct (seps_group_end_sound r g rem H) as (Hne & Hdot & Hlen).
  apply literal_ci_length in Hlit. simpl in Hlit.
  split; [exact Hne|]. split; [exact Hdot|lia].
Qed.

Lemma title_exec_sound (s pre g rem : string) :
  title_exec s = Some (pre, g, rem) ->
  g <> "" /\ all_chars is_dot g = true
  /\ (String.length pre + String.length g + String.length rem + 6 <= String.length s)%nat.
Proof.
  revert pre. induction s as [|c s IH]; intros pre.
  - simpl. discriminate.
  - cbn [title_exec]. destruct (title_here (String c s)) as [[g' rem']|] eqn:Hhere.
    + intros H. injection H as <- <- <-.
      destruct (title_here_sound _ _ _ Hhere) as (Hne & Hdot & Hlen).
      split; [exact Hne|]. split; [exact Hdot|simpl in *; lia].
    + destruct (title_exec s) as [[[pre' g'] rem']|]; [|discriminate].
      intros H. injection H as <- <- <-.
      destruct (IH pre' eq_refl) as (Hne & Hdot & Hlen).
      split; [exact Hne|]. split; [exact Hdot|simpl; lia].
Qed.

Lemma trimStart_keeps (f : ascii -> bool) (s : string) :
  all_chars f s = true ->
  all_chars f (trimStart s) = true
  /\ (String.length (trimStart s) <= String.length s)%nat.
Proof.
  induction s as [|c s IH]; [intros _; split; [reflexivity|simpl; lia]|].
  simpl. intros H. apply andb_true_iff in H as [Hc Hs].
  destruct (is_space c).
  - destruct (IH Hs). split; [assumption|lia].
  - split; [simpl; rewrite Hc, Hs; reflexivity|simpl; lia].
Qed.

Lemma trimEnd_keeps (f : ascii -> bool) (s : string) :
  all_chars f s = true ->
  all_chars f (trimEnd s) = true
  /\ (String.length (trimEnd s) <= String.length s)%nat.
Proof.
  induction s as [|c s IH]; [intros _; split; [reflexivity|simpl; lia]|].
  intros H. simpl in H. apply andb_true_iff in H as [Hc Hs].
  cbn [trimEnd]. destruct (all_space (String c s)).
  - split; [reflexivity|simpl; lia].
  - destruct (IH Hs). split; [simpl; rewrite Hc; assumption|simpl; lia].
Qed.

Lemma trim_keeps (f : ascii -> bool) (s : string) :
  all_chars f s = true ->
  all_chars f (trim s) = true /\ (String.length (trim s) <= String.length s)%nat.
Proof.
  intros H. unfold trim.
  destruct (trimStart_keeps f s H) as [H1 L1].
  destruct (trimEnd_keeps f (trimStart s) H1) as [H2 L2].
  split; [exact H2|lia].
Qed.

Lemma all_chars_trivial (s : string) : all_chars (fun _ => true) s = true.
Proof. induction s as [|c s IH]; [reflexivity|exact IH]. Qed.

Lemma truthy_str_nonempty (s : string) : truthy_str s = true -> s <> "".
Proof. destruct s; [discriminate|discriminate]. Qed.

(** Property X26.  The title of a parsed description is never empty and
    never spans lines: it is the trimmed capture of the title pattern, which
    holds at least one character and no line terminator, or "Image
    Analysis".  The description is never longer than the content, and at
    least seven characters shorter -- the word, a separator and the capture
    -- when the pattern matched. *)
Theorem parsed_title_is_one_line (content : string) :
  exists title description,
    parse_description content = TitleDescription title description
    /\ title <> ""
    /\ all_chars is_dot title = true
    /\ (String.length description <= String.length content)%nat
    /\ (title_exec content <> None ->
        (String.length description + 7 <= String.length content)%nat).
Proof.
  unfold parse_description, title_group, title_removed.
  destruct (title_exec content) as [[[pre g] rem]|] eqn:Hexec.
  - destruct (title_exec_sound content pre g rem Hexec) as (Hne & Hdot & Hlen).
    destruct (trim_keeps is_dot g Hdot) as [Htrim _].
    destruct (trim_keeps _ (pre +:+ rem) (all_chars_trivial _)) as [_ Hdesc].
    rewrite length_app in Hdesc.
    assert (Hg : (1 <= String.length g)%nat).
    { destruct g; [contradiction|simpl; lia]. }
    eexists _, _. split; [reflexivity|]. simpl. unfold or_default.
    destruct (truthy_str (trim g)) eqn:Htruthy.
    + split; [apply truthy_str_nonempty, Htruthy|]. split; [exact Htrim|].
      split; [lia|intros _; lia].
    + split; [discriminate|]. split; [reflexivity|]. split; [lia|intros _; lia].
  - destruct (trim_keeps _ content (all_chars_trivial _)) as [_ Hdesc].
    eexists _, _. split; [reflexivity|].
    split; [discriminate|]. split; [reflexivity|]. split; [exact Hdesc|].
    intros H. contradiction.
Qed.

(** Property X27.  A bare image URL, an object without a prompt, an object
    with an empty prompt and an object with the default analysis prompt are
    the same request -- the default prompt, the resolved description model
    (default "gpt-4o") -- and the same result; they differ only in the
    prompt recorded with a usage event (the URL for the bare form, the
    prompt or the empty string for an object). *)
Theorem description_default_prompt_forms (w : World) (imageUrl : string) :
  let bare := DescribeUrl imageUrl in
  forall p,
    p = DescribeObject imageUrl None
    \/ p = DescribeObject imageUrl (Some "")
    \/ p = DescribeObject imageUrl (Some defaultPrompt) ->
    imageDescriptionRequest w p = imageDescriptionRequest w bare
    /\ completion (IMAGE_DESCRIPTION_handler w p)
       = completion (IMAGE_DESCRIPTION_handler w bare)
    /\ body_field (imageDescriptionRequest w p) "model"
       = Some (JStr (default "gpt-4o"
                       (first_resolved [settings w !! "ELIZAOS_IMAGE_DESCRIPTION_MODEL";
                                        env w !! "ELIZAOS_IMAGE_DESCRIPTION_MODEL"]))).
Proof.
  intros bare p Hp. subst bare.
  assert (Hreq : imageDescriptionRequest w p = imageDescriptionRequest w (DescribeUrl imageUrl)).
  { destruct Hp as [-> | [-> | ->]]; reflexivity. }
  assert (Hcustom : isCustomPrompt p = false).
  { destruct Hp as [-> | [-> | ->]]; reflexivity. }
  split; [exact Hreq|]. split.
  - destruct (truthy_opt (getApiKey w)) eqn:Hkey.
    + rewrite !(description_network_phase w _ Hkey).
      unfold description_reply, completion. cbn [snd].
      rewrite Hreq, Hcustom. reflexivity.
    + rewrite !(description_missing_key w _ Hkey). reflexivity.
  - rewrite Hreq. unfold imageDescriptionRequest, body_field, getImageDescriptionModel.
    rewrite getSetting_with_default. reflexivity.
Qed.

Lemma description_default_prompt_witness :
  let w := upstream 200 "OK" "" (Returned (chat_reply "A cat.")) in
  let p := DescribeObject "https://img.example/cat.png" (Some "") in
  (p = DescribeObject "https://img.example/cat.png" None
   \/ p = DescribeObject "https://img.example/cat.png" (Some "")
   \/ p = DescribeObject "https://img.example/cat.png" (Some defaultPrompt))
  /\ imageDescriptionRequest w p
     = imageDescriptionRequest w (DescribeUrl "https://img.example/cat.png").
Proof.
  intros w p.
  assert (H : p = DescribeObject "https://img.example/cat.png" None
              \/ p = DescribeObject "https://img.example/cat.png" (Some "")
              \/ p = DescribeObject "https://img.example/cat.png" (Some defaultPrompt))
    by (right; left; reflexivity).
  split; [exact H|].
  exact (proj1 (description_default_prompt_forms w _ p H)).
Defined.
